(** * ARINC-429 socket driver (driver/arinc429.c): model and properties

    A shallow embedding of the socket family implemented in
    [driver/arinc429.c]: the per-device socket lists, the raw protocol's
    bind and sendmsg, the socket creator and the ingress packet handler.

    Kernel objects live in explicit stores indexed by their address; a C
    pointer is [option positive], [None] being NULL.  Calls into the
    networking core that the driver makes (device lookup, buffer allocation,
    transmit, socket allocation, error report) are recorded, in order, in
    the state's log, and the answers of the core (allocation results,
    transmit status) are arguments of the modelled functions. *)

From Stdlib Require Import ZArith List Lia.
From stdpp Require Import base decidable option list gmap.

Open Scope Z_scope.

(** ** Constants of the kernel headers *)

(** errno values, include/uapi/asm-generic/errno-base.h and errno.h *)
Definition ENXIO : Z := 6.
Definition ENOMEM : Z := 12.
Definition ENODEV : Z := 19.
Definition EINVAL : Z := 22.
Definition EMSGSIZE : Z := 90.
Definition EPROTONOSUPPORT : Z := 93.
Definition EAFNOSUPPORT : Z := 97.
Definition ENETDOWN : Z := 100.
Definition ENOBUFS : Z := 105.

(** include/linux/netdevice.h *)
Definition NET_RX_SUCCESS : Z := 0.
Definition NET_RX_DROP : Z := 1.
Definition NET_XMIT_CN : Z := 2.

(** [net_xmit_errno(e)] is [((e) != NET_XMIT_CN ? -ENOBUFS : 0)]. *)
Definition net_xmit_errno (e : Z) : Z :=
  if decide (e ≠ NET_XMIT_CN) then - ENOBUFS else 0.

(** include/uapi/linux/if.h *)
Definition IFF_UP : Z := 1.

(** include/linux/net.h: [SS_UNCONNECTED] of [socket_state]. *)
Definition SS_UNCONNECTED : Z := 1.

Definition INT_MAX : Z := 2147483647.

(** Conversion of an integer value to C's 32-bit [int]. *)
Definition to_int (z : Z) : Z := (z + 2 ^ 31) mod 2 ^ 32 - 2 ^ 31.

(** Conversion of an integer value to the 64-bit [size_t], as in the
    comparison of an [int] with a [sizeof]. *)
Definition to_size_t (z : Z) : Z := z mod 2 ^ 64.

(** Modelled from the spec: [ARINC429_WORD_SIZE] is declared in arinc429.h,
    which is not part of the sources; the specification fixes the word size
    at 4 bytes. *)
Definition ARINC429_WORD_SIZE : Z := 4.

(** [struct arinc429_skb_priv] is an [int] followed by a zero-length array. *)
Definition sizeof_arinc429_skb_priv : Z := 4.

(** ** Data model *)

(** Addresses of kernel objects. *)
Abbreviation ptr := positive (only parsing).

(** Network namespaces; [init_net] is the initial one. *)
Inductive net : Set :=
| init_net
| other_net (id : positive).

#[global] Instance net_eq_dec : EqDecision net.
Proof. solve_decision. Defined.

(** Values of the [ingress_func] function pointer of a list entry.  The only
    delivery function of the driver is [raw_ingress]; [fn_at] stands for any
    other function address. *)
Inductive ingress_func_t : Set :=
| fn_raw_ingress
| fn_at (addr : positive).

#[global] Instance ingress_func_eq_dec : EqDecision ingress_func_t.
Proof. solve_decision. Defined.

(** [struct dev_socket_info].  The [node] member is the entry's position in
    the list that links it (see [sl_head]). *)
Record dev_socket_info := {
  info_sk : ptr;
  ingress_func : ingress_func_t
}.

(** [struct dev_socket_list].  The [hlist_head] is the sequence of the
    addresses of the linked [dev_socket_info] nodes, first node first. *)
Record dev_socket_list := {
  sl_head : list ptr;
  remove_on_zero_entries : Z;
  entries : Z
}.

(** The members of [struct net_device] that the driver reads or writes. *)
Record net_device := {
  dev_net : net;
  dev_ifindex : Z;
  dev_type : Z;
  dev_flags : Z;
  mtu : Z;
  ml_priv : option ptr
}.

(** The members of [struct sk_buff] that the driver reads or writes;
    [skb_priv_ifindex] is the [arinc429_skb_priv] stored in the headroom,
    [skb_dev] the interface index of [skb->dev], 0 while [skb->dev] is
    NULL. *)
Record sk_buff := {
  skb_len : Z;
  skb_priv_ifindex : Z;
  skb_dev : Z;
  skb_sk : option ptr
}.

(** [struct proto_raw_sock]: the embedded [struct sock] (error code,
    [SOCK_DEAD] flag, receive queue) and the raw protocol's members. *)
Record proto_raw_sock := {
  sk_err : Z;
  sock_dead : bool;
  sk_receive_queue : list sk_buff;
  psk_ifindex : Z;
  bound : Z
}.

(** Calls into the networking core. *)
Inductive event :=
| EvDevGet (ifindex : Z)               (* dev_get_by_index *)
| EvDevPut (ifindex : Z)               (* dev_put *)
| EvAllocSkb (sk : ptr) (size : Z)     (* sock_alloc_send_skb *)
| EvXmit (skb : sk_buff)               (* dev_queue_xmit *)
| EvKfreeSkb (skb : sk_buff)           (* kfree_skb *)
| EvConsumeSkb (skb : sk_buff)         (* consume_skb *)
| EvSkAlloc                            (* sk_alloc *)
| EvErrorReport (sk : ptr).            (* sk->sk_error_report(sk) *)

(** The kernel state the driver works on.  [netdevs] is the interface table
    of the namespace the sockets of this family live in ([init_net], see
    [arinc429_sock_create]), by interface index; [sk_lists] holds the
    [kzalloc]ed socket lists, [sk_infos] the objects of [dev_socket_cache],
    [socks] the sockets. *)
Record kstate := {
  netdevs : gmap Z net_device;
  sk_lists : gmap positive dev_socket_list;
  sk_infos : gmap positive dev_socket_info;
  socks : gmap positive proto_raw_sock;
  klog : list event
}.

(** Outcome of a call: [Ret v s], it returns [v] in state [s]; [Oops s],
    it writes through a NULL pointer in state [s], which faults, and does
    not return; [Undef s], it uses, in state [s], an object that is not
    live (freed, or never allocated), to which the source gives no
    meaning: what the call does from there on is not modelled. *)
Inductive result (A : Type) :=
| Ret (v : A) (s : kstate)
| Oops (s : kstate)
| Undef (s : kstate).

Arguments Ret {A} v s.
Arguments Oops {A} s.
Arguments Undef {A} s.

(** *** Field updates *)

Definition set_sk_lists (m : gmap positive dev_socket_list) (s : kstate) : kstate :=
  {| netdevs := netdevs s; sk_lists := m; sk_infos := sk_infos s;
     socks := socks s; klog := klog s |}.

Definition set_sk_infos (m : gmap positive dev_socket_info) (s : kstate) : kstate :=
  {| netdevs := netdevs s; sk_lists := sk_lists s; sk_infos := m;
     socks := socks s; klog := klog s |}.

Definition set_socks (m : gmap positive proto_raw_sock) (s : kstate) : kstate :=
  {| netdevs := netdevs s; sk_lists := sk_lists s; sk_infos := sk_infos s;
     socks := m; klog := klog s |}.

(** Appends a call to the log. *)
Definition emit (e : event) (s : kstate) : kstate :=
  {| netdevs := netdevs s; sk_lists := sk_lists s; sk_infos := sk_infos s;
     socks := socks s; klog := klog s ++ [e] |}.

Definition set_ml_priv (p : option ptr) (dev : net_device) : net_device :=
  {| dev_net := dev_net dev; dev_ifindex := dev_ifindex dev;
     dev_type := dev_type dev; dev_flags := dev_flags dev; mtu := mtu dev;
     ml_priv := p |}.

(** ** Socket lists *)

(** [kmem_cache_free(dev_socket_cache, p)] *)
Definition kmem_cache_free (p : ptr) (s : kstate) : kstate :=
  set_sk_infos (delete p (sk_infos s)) s.

(** [kfree(sk_list)] *)
Definition kfree (p : ptr) (s : kstate) : kstate :=
  set_sk_lists (delete p (sk_lists s)) s.

(** Value of the cursor of a list traversal when control leaves the loop:
    [At pos], the loop was left from its body at node [pos]; [Null], the
    list was exhausted, which is the loop's exit condition [pos == NULL];
    [Wild pos], the traversal reached a node that is not a live object. *)
Inductive cursor :=
| At (pos : ptr)
| Null
| Wild (pos : ptr).

(** [hlist_for_each_entry_rcu(pos, head, node) { if (test(pos)) <leave>; }]
    (include/linux/rculist.h).  The macro assigns the variable [pos] it is
    given: the first node, then each next node, and NULL at the end. *)
Fixpoint hlist_for_each_entry_rcu (infos : gmap positive dev_socket_info)
    (test : dev_socket_info -> bool) (nodes : list ptr) : cursor :=
  match nodes with
  | [] => Null
  | pos :: rest =>
      match infos !! pos with
      | None => Wild pos
      | Some e =>
          if test e then At pos
          else hlist_for_each_entry_rcu infos test rest
      end
  end.

(** The test of both traversals:
    [sk_info->ingress_func == ingress_func && sk_info->sk == sk]. *)
Definition same_socket (f : ingress_func_t) (sk : ptr) (e : dev_socket_info) : bool :=
  bool_decide (ingress_func e = f) && bool_decide (info_sk e = sk).

(** [hlist_add_head_rcu(&n->node, head)]: writes [n->node.next] first, so a
    NULL [n] faults ([node] is the first member, [&n->node] is [n]). *)
Definition hlist_add_head_rcu (n : option ptr) (h : list ptr) : option (list ptr) :=
  match n with
  | None => None
  | Some p => Some (p :: h)
  end.

(** [hlist_del_rcu(&n->node)]: unlinks the node. *)
Fixpoint hlist_del_rcu (n : ptr) (h : list ptr) : list ptr :=
  match h with
  | [] => []
  | p :: rest => if decide (p = n) then rest else p :: hlist_del_rcu n rest
  end.

(** Constants of arinc429.h, which is not part of the sources: the
    link-layer type of an ARINC-429 device, the address family, the number
    of the raw protocol and the size of [struct sockaddr_arinc429]. *)
Class arinc429_h := {
  ARPHRD_ARINC429 : Z;
  AF_ARINC429 : Z;
  ARINC429_PROTO_RAW : Z;
  sizeof_sockaddr_arinc429 : Z
}.

Section Driver.

Context {hdr : arinc429_h}.

(** [dev_register_socket(dev, ingress_func, sk)].  [alloc] is the answer of
    [kmem_cache_alloc].  The local variable [sk_info] first holds the new
    object and is then used as the cursor of the traversal.  [dev] is a
    device the caller has looked up, never NULL. *)
Definition dev_register_socket (dev : net_device) (f : ingress_func_t)
    (sk : ptr) (alloc : option ptr) (s : kstate) : result Z :=
  if decide (dev_type dev ≠ ARPHRD_ARINC429) then Ret (- ENODEV) s
  else
    match ml_priv dev with
    | None => Ret (- ENODEV) s
    | Some lp =>
        match alloc with
        | None => Ret (- ENOMEM) s
        | Some new =>
            (* sk_info->sk = sk; sk_info->ingress_func = ingress_func; *)
            let s1 :=
              set_sk_infos
                (<[new := {| info_sk := sk; ingress_func := f |}]> (sk_infos s)) s in
            match sk_lists s1 !! lp with
            | None => Undef s1
            | Some sk_list =>
                match hlist_for_each_entry_rcu (sk_infos s1) (same_socket f sk)
                        (sl_head sk_list) with
                | Wild _ => Undef s1
                | At sk_info => Ret 0 (kmem_cache_free sk_info s1)
                | Null =>
                    let sk_info : option ptr := None in
                    match hlist_add_head_rcu sk_info (sl_head sk_list) with
                    | None => Oops s1
                    | Some h =>
                        Ret 0
                          (set_sk_lists
                             (<[lp := {| sl_head := h;
                                         remove_on_zero_entries :=
                                           remove_on_zero_entries sk_list;
                                         entries := to_int (entries sk_list + 1) |}]>
                                (sk_lists s1)) s1)
                    end
                end
            end
        end
    end.

(** [dev_unregister_socket(dev, ingress_func, sk)]; returns the device as
    the call leaves it. *)
Definition dev_unregister_socket (dev : net_device) (f : ingress_func_t)
    (sk : ptr) (s : kstate) : result net_device :=
  if decide (dev_type dev ≠ ARPHRD_ARINC429) then Ret dev s
  else
    match ml_priv dev with
    | None => Ret dev s
    | Some lp =>
        match sk_lists s !! lp with
        | None => Undef s
        | Some sk_list =>
            match hlist_for_each_entry_rcu (sk_infos s) (same_socket f sk)
                    (sl_head sk_list) with
            | Wild _ => Undef s
            | Null => Ret dev s
            | At sk_info =>
                let n := to_int (entries sk_list - 1) in
                let sk_list1 :=
                  {| sl_head := hlist_del_rcu sk_info (sl_head sk_list);
                     remove_on_zero_entries := remove_on_zero_entries sk_list;
                     entries := n |} in
                if decide (remove_on_zero_entries sk_list ≠ 0 ∧ n <= 0) then
                  Ret (set_ml_priv None dev)
                      (kmem_cache_free sk_info (kfree lp s))
                else
                  Ret dev
                      (kmem_cache_free sk_info
                         (set_sk_lists (<[lp := sk_list1]> (sk_lists s)) s))
            end
        end
    end.

(** [dev_remove_socket_list(dev)]; returns the device as the call leaves
    it.  The assignment [dev->ml_priv = NULL] is not under the test of
    [entries]. *)
Definition dev_remove_socket_list (dev : net_device) (s : kstate) : result net_device :=
  match ml_priv dev with
  | Some lp =>
      match sk_lists s !! lp with
      | None => Undef s
      | Some sk_list =>
          let sk_list1 :=
            {| sl_head := sl_head sk_list;
               remove_on_zero_entries := 1;
               entries := entries sk_list |} in
          let s1 := set_sk_lists (<[lp := sk_list1]> (sk_lists s)) s in
          let s2 := if decide (entries sk_list1 = 0) then kfree lp s1 else s1 in
          Ret (set_ml_priv None dev) s2
      end
  | None => Ret dev s
  end.

(** [dev_add_socket_list(dev)]; [alloc] is the answer of [kzalloc]. *)
Definition dev_add_socket_list (dev : net_device) (alloc : option ptr)
    (s : kstate) : Z * net_device * kstate :=
  match ml_priv dev with
  | Some _ => (- EINVAL, dev, s)
  | None =>
      match alloc with
      | None => (- ENOMEM, dev, s)
      | Some lp =>
          (0, set_ml_priv (Some lp) dev,
           set_sk_lists
             (<[lp := {| sl_head := []; remove_on_zero_entries := 0;
                         entries := 0 |}]> (sk_lists s)) s)
      end
  end.

(** ** Raw protocol *)

(** [raw_ingress(skb, sk)]: prints a message, nothing else. *)
Definition raw_ingress (skb : sk_buff) (sk : ptr) (s : kstate) : kstate := s.

(** [struct sockaddr_arinc429] *)
Record sockaddr_arinc429 := {
  arinc429_family : Z;
  arinc429_ifindex : Z
}.

Definition set_bound (ifindex : Z) (b : Z) (psk : proto_raw_sock) : proto_raw_sock :=
  {| sk_err := sk_err psk; sock_dead := sock_dead psk;
     sk_receive_queue := sk_receive_queue psk;
     psk_ifindex := ifindex; bound := b |}.

Definition set_sk_err (e : Z) (psk : proto_raw_sock) : proto_raw_sock :=
  {| sk_err := e; sock_dead := sock_dead psk;
     sk_receive_queue := sk_receive_queue psk;
     psk_ifindex := psk_ifindex psk; bound := bound psk |}.

(** The tail of [proto_raw_bind] after [release_sock]:
    [if (!(dev->flags & IFF_UP)) { sk->sk_err = ENETDOWN;
       if (!sock_flag(sk, SOCK_DEAD)) sk->sk_error_report(sk); }] *)
Definition report_if_down (dev : net_device) (sk : ptr) (psk : proto_raw_sock)
    (s : kstate) : kstate :=
  if decide (Z.land (dev_flags dev) IFF_UP = 0) then
    let s1 := set_socks (<[sk := set_sk_err ENETDOWN psk]> (socks s)) s in
    if sock_dead psk then s1 else emit (EvErrorReport sk) s1
  else s.

(** [proto_raw_bind(sock, saddr, len)] with [sk = sock->sk]; [alloc] is the
    answer of the allocator to [dev_register_socket]. *)
Definition proto_raw_bind (sk : ptr) (addr : sockaddr_arinc429) (len : Z)
    (alloc : option ptr) (s : kstate) : result Z :=
  if decide (to_size_t len ≠ sizeof_sockaddr_arinc429) then Ret (- EINVAL) s
  else if decide (arinc429_ifindex addr = 0) then Ret (- EINVAL) s
  else
    match socks s !! sk with
    | None => Undef s
    | Some psk =>
        if decide (bound psk ≠ 0 ∧ arinc429_ifindex addr = psk_ifindex psk)
        then Ret 0 s
        else
          let s1 := emit (EvDevGet (arinc429_ifindex addr)) s in
          match netdevs s1 !! arinc429_ifindex addr with
          | None => Ret (- ENODEV) s1
          | Some dev =>
              if decide (dev_type dev ≠ ARPHRD_ARINC429) then
                Ret (- ENODEV) (emit (EvDevPut (dev_ifindex dev)) s1)
              else
                match dev_register_socket dev fn_raw_ingress sk alloc s1 with
                | Oops s2 => Oops s2
                | Undef s2 => Undef s2
                | Ret err s2 =>
                    if decide (err ≠ 0) then
                      Ret (- ENODEV) (emit (EvDevPut (dev_ifindex dev)) s2)
                    else
                      let psk1 := set_bound (dev_ifindex dev) 1 psk in
                      let s3 := set_socks (<[sk := psk1]> (socks s2)) s2 in
                      let s4 := report_if_down dev sk psk1 s3 in
                      Ret 0 (emit (EvDevPut (dev_ifindex dev)) s4)
                end
          end
    end.

(** The members of [struct msghdr] that [proto_raw_sendmsg] reads. *)
Record msghdr := {
  msg_name : option sockaddr_arinc429;
  msg_namelen : Z;
  msg_flags : Z
}.

(** Answers of the networking core during one [proto_raw_sendmsg]:
    [alloc_err] is [None] when [sock_alloc_send_skb] returns a buffer and
    [Some e] when it returns NULL with [*errcode = e]; [memcpy_ret] is the
    return value of [memcpy_from_msg], [xmit_ret] that of [dev_queue_xmit]. *)
Record send_answers := {
  alloc_err : option Z;
  memcpy_ret : Z;
  xmit_ret : Z
}.

(** The part of [proto_raw_sendmsg] that follows the choice of [ifindex]:
    from the comment "Make sure the device is valid" to the end. *)
Definition sendmsg_on_ifindex (sk : ptr) (size : Z) (ans : send_answers)
    (ifindex : Z) (s : kstate) : result Z :=
  let s1 := emit (EvDevGet ifindex) s in
  match netdevs s1 !! ifindex with
  | None => Ret (- ENXIO) s1
  | Some dev =>
      let put := emit (EvDevPut (dev_ifindex dev)) in
      if decide (dev_type dev ≠ ARPHRD_ARINC429) then Ret (- ENODEV) (put s1)
      else if decide (size > mtu dev) then Ret (- EMSGSIZE) (put s1)
      else if decide (Z.land (dev_flags dev) IFF_UP = 0) then
        Ret (- ENETDOWN) (put s1)
      else
        let s2 := emit (EvAllocSkb sk (size + sizeof_arinc429_skb_priv)) s1 in
        match alloc_err ans with
        | Some err => Ret err (put s2)
        | None =>
            (* the buffer as allocated and reserved: skb->dev is not set yet *)
            let skb0 := {| skb_len := size;
                           skb_priv_ifindex := dev_ifindex dev;
                           skb_dev := 0;
                           skb_sk := Some sk |} in
            if decide (memcpy_ret ans < 0) then
              Ret (memcpy_ret ans) (put (emit (EvKfreeSkb skb0) s2))
            else
              let skb := {| skb_len := size;
                            skb_priv_ifindex := dev_ifindex dev;
                            skb_dev := dev_ifindex dev;
                            skb_sk := Some sk |} in
              let s3 := emit (EvXmit skb) s2 in
              let err := xmit_ret ans in
              let err := if decide (err > 0) then net_xmit_errno err else err in
              if decide (err ≠ 0) then Ret err (put s3)
              else Ret (to_int size) (put s3)
        end
  end.

(** [proto_raw_sendmsg(sock, msg, size)] with [sk = sock->sk].  [size] is a
    [size_t], never negative; the function returns it as an [int]. *)
Definition proto_raw_sendmsg (sk : ptr) (msg : msghdr) (size : Z)
    (ans : send_answers) (s : kstate) : result Z :=
  if decide (size mod ARINC429_WORD_SIZE ≠ 0) then Ret (- EINVAL) s
  else
    match msg_name msg with
    | Some addr =>
        if decide (to_size_t (msg_namelen msg) < sizeof_sockaddr_arinc429) then
          Ret (- EINVAL) s
        else if decide (arinc429_family addr ≠ AF_ARINC429) then Ret (- EINVAL) s
        else sendmsg_on_ifindex sk size ans (arinc429_ifindex addr) s
    | None =>
        match socks s !! sk with
        | None => Undef s
        | Some psk => sendmsg_on_ifindex sk size ans (psk_ifindex psk) s
        end
    end.

(** ** Socket creator *)

(** The protocol operations a socket can be given; the driver has one
    table, [proto_raw_ops]. *)
Inductive proto_ops := proto_raw_ops.

(** The members of [struct socket] that [arinc429_sock_create] writes. *)
Record socket := {
  sock_state : Z;
  sock_ops : option proto_ops;
  sock_sk : option ptr
}.

(** [arinc429_sock_create(net, sock, protocol, kern)]; [alloc] is the answer
    of [sk_alloc], which returns a zeroed object.  [proto_raw] has no [init]
    member, so the last block of the function is skipped. *)
Definition arinc429_sock_create (n : net) (sock : socket) (protocol : Z)
    (kern : Z) (alloc : option ptr) (s : kstate) : Z * socket * kstate :=
  let sock1 := {| sock_state := SS_UNCONNECTED; sock_ops := sock_ops sock;
                  sock_sk := sock_sk sock |} in
  if decide (n ≠ init_net) then (- EAFNOSUPPORT, sock1, s)
  else if decide (protocol = ARINC429_PROTO_RAW) then
    let sock2 := {| sock_state := sock_state sock1;
                    sock_ops := Some proto_raw_ops;
                    sock_sk := sock_sk sock1 |} in
    let s1 := emit EvSkAlloc s in
    match alloc with
    | None => (- ENOMEM, sock2, s1)
    | Some sk =>
        let psk := {| sk_err := 0; sock_dead := false; sk_receive_queue := [];
                      psk_ifindex := 0; bound := 0 |} in
        (0,
         {| sock_state := sock_state sock2; sock_ops := sock_ops sock2;
            sock_sk := Some sk |},
         set_socks (<[sk := psk]> (socks s1)) s1)
    end
  else (- EPROTONOSUPPORT, sock1, s).

(** ** Ingress packet processing *)

(** [WARN_ONCE(condition, ...)] evaluates to the truth value of its
    condition. *)
Definition WARN_ONCE (condition : bool) : Z := if condition then 1 else 0.

(** [arinc429_packet_ingress(skb, dev, pt, orig_dev)].  Between
    [rcu_read_lock] and [rcu_read_unlock] the function does nothing. *)
Definition arinc429_packet_ingress (skb : sk_buff) (dev : net_device)
    (s : kstate) : Z * kstate :=
  if decide (dev_net dev ≠ init_net) then (NET_RX_DROP, emit (EvKfreeSkb skb) s)
  else
    let err :=
      WARN_ONCE (bool_decide (dev_type dev ≠ ARPHRD_ARINC429)
                 || bool_decide (skb_len skb mod ARINC429_WORD_SIZE ≠ 0)) in
    if decide (err ≠ 0) then (NET_RX_DROP, emit (EvKfreeSkb skb) s)
    else (NET_RX_SUCCESS, emit (EvConsumeSkb skb) s).

End Driver.

(** ** The rest of the driver *)

(** include/uapi/asm-generic/errno.h *)
Definition EOPNOTSUPP : Z := 95.

(** include/linux/socket.h *)
Definition MSG_TRUNC : Z := 32.

(** include/linux/notifier.h and include/linux/netdevice.h *)
Definition NOTIFY_DONE : Z := 0.
Definition NETDEV_REGISTER : Z := 5.
Definition NETDEV_UNREGISTER : Z := 6.

Definition set_netdevs (m : gmap Z net_device) (s : kstate) : kstate :=
  {| netdevs := m; sk_lists := sk_lists s; sk_infos := sk_infos s;
     socks := socks s; klog := klog s |}.

(** [arinc429_sock_destruct(sk)]: [skb_queue_purge] frees every queued
    buffer with [kfree_skb] and leaves the queue empty. *)
Definition arinc429_sock_destruct (sk : ptr) (s : kstate) : kstate :=
  match socks s !! sk with
  | None => s
  | Some psk =>
      let s1 := foldl (fun acc skb => emit (EvKfreeSkb skb) acc) s
                  (sk_receive_queue psk) in
      set_socks
        (<[sk := {| sk_err := sk_err psk; sock_dead := sock_dead psk;
                    sk_receive_queue := [];
                    psk_ifindex := psk_ifindex psk; bound := bound psk |}]>
           (socks s1)) s1
  end.

(** [sock_put(sk)]: [last_ref] tells whether the reference dropped is the
    last one; the socket is then destructed ([sk->sk_destruct], which
    [arinc429_sock_create] sets to [arinc429_sock_destruct]) and freed. *)
Definition sock_put (sk : ptr) (last_ref : bool) (s : kstate) : kstate :=
  if last_ref then
    let s1 := arinc429_sock_destruct sk s in
    set_socks (delete sk (socks s1)) s1
  else s.

(** [sock_orphan(sk)]: sets [SOCK_DEAD]. *)
Definition sock_orphan (psk : proto_raw_sock) : proto_raw_sock :=
  {| sk_err := sk_err psk; sock_dead := true;
     sk_receive_queue := sk_receive_queue psk;
     psk_ifindex := psk_ifindex psk; bound := bound psk |}.

Section DriverRest.

Context {hdr : arinc429_h}.

(** [proto_raw_release(sock)]; returns the [struct socket] as the call
    leaves it.  The device found by [dev_get_by_index] is the object of the
    interface table, so what [dev_unregister_socket] writes to it is written
    to the table; the function has no [dev_put]. *)
Definition proto_raw_release (sock : socket) (last_ref : bool) (s : kstate)
    : result (Z * socket) :=
  match sock_sk sock with
  | None => Ret (0, sock) s
  | Some sk =>
      match socks s !! sk with
      | None => Undef s
      | Some psk =>
          let s1 := emit (EvDevGet (psk_ifindex psk)) s in
          let unregistered : result unit :=
            match netdevs s1 !! psk_ifindex psk with
            | Some dev =>
                match dev_unregister_socket dev fn_raw_ingress sk s1 with
                | Oops s2 => Oops s2
                | Undef s2 => Undef s2
                | Ret dev' s2 =>
                    Ret tt (set_netdevs
                              (<[psk_ifindex psk := dev']> (netdevs s2)) s2)
                end
            | None => Ret tt s1
            end in
          match unregistered with
          | Oops s2 => Oops s2
          | Undef s2 => Undef s2
          | Ret _ s2 =>
              let psk1 := sock_orphan (set_bound 0 0 psk) in
              let s3 := set_socks (<[sk := psk1]> (socks s2)) s2 in
              Ret (0, {| sock_state := sock_state sock;
                         sock_ops := sock_ops sock; sock_sk := None |})
                  (sock_put sk last_ref s3)
          end
      end
  end.

(** [proto_raw_getname(sock, saddr, len, peer)] with [sk = sock->sk];
    returns the status and, on success, the address written and [*len]. *)
Definition proto_raw_getname (sk : ptr) (peer : Z) (s : kstate)
    : result (Z * option (sockaddr_arinc429 * Z)) :=
  if decide (peer ≠ 0) then Ret (- EOPNOTSUPP, None) s
  else
    match socks s !! sk with
    | None => Undef s
    | Some psk =>
        Ret (0, Some ({| arinc429_family := AF_ARINC429;
                         arinc429_ifindex := psk_ifindex psk |},
                      to_int sizeof_sockaddr_arinc429)) s
    end.

(** Answers of the networking core during one [proto_raw_recvmsg]:
    [recv_skb] is the buffer [skb_recv_datagram] returns, or [None] when it
    returns NULL with [*err = recv_err]; [recv_cb] is the content of the
    buffer's control block; [copy_ret] is the return value of
    [memcpy_to_msg]. *)
Record recv_answers := {
  recv_skb : option sk_buff;
  recv_err : Z;
  recv_cb : sockaddr_arinc429;
  copy_ret : Z
}.

(** [proto_raw_recvmsg(sock, msg, size, flags)]; returns the status, the
    message header as the call leaves it and the number of bytes
    [memcpy_to_msg] is asked to copy to the caller's buffer ([None] when it
    is not called; its length parameter is an [int]).  [flags] only selects
    what [skb_recv_datagram] does; [sock_recv_ts_and_drops] writes control
    data of the message, which is not among the members modelled. *)
Definition proto_raw_recvmsg (msg : msghdr) (size : Z) (flags : Z)
    (ans : recv_answers) : Z * msghdr * option Z :=
  match recv_skb ans with
  | None => (recv_err ans, msg, None)
  | Some skb =>
      let truncated := bool_decide (size < skb_len skb) in
      let msg1 :=
        if truncated then
          {| msg_name := msg_name msg; msg_namelen := msg_namelen msg;
             msg_flags := Z.lor (msg_flags msg) MSG_TRUNC |}
        else msg in
      let size1 := if truncated then size else skb_len skb in
      if decide (copy_ret ans < 0) then (copy_ret ans, msg1, Some (to_int size1))
      else
        let msg2 :=
          match msg_name msg1 with
          | Some _ =>
              {| msg_name := Some (recv_cb ans);
                 msg_namelen := to_int sizeof_sockaddr_arinc429;
                 msg_flags := msg_flags msg1 |}
          | None => msg1
          end in
        (to_int size1, msg2, Some (to_int size1))
  end.

(** [arinc429_netdev_notifier(nb, msg, ptr)] with
    [dev = netdev_notifier_info_to_dev(ptr)]; returns the status and the
    device as the call leaves it.  [alloc] is the answer of [kzalloc] to
    [dev_add_socket_list], whose return value is ignored. *)
Definition arinc429_netdev_notifier (msg : Z) (dev : net_device)
    (alloc : option ptr) (s : kstate) : result (Z * net_device) :=
  if decide (dev_net dev ≠ init_net) then Ret (NOTIFY_DONE, dev) s
  else if decide (dev_type dev ≠ ARPHRD_ARINC429) then Ret (NOTIFY_DONE, dev) s
  else if decide (msg = NETDEV_REGISTER) then
    let '(_, dev1, s1) := dev_add_socket_list dev alloc s in
    Ret (NOTIFY_DONE, dev1) s1
  else if decide (msg = NETDEV_UNREGISTER) then
    match dev_remove_socket_list dev s with
    | Ret dev1 s1 => Ret (NOTIFY_DONE, dev1) s1
    | Oops s1 => Oops s1
    | Undef s1 => Undef s1
    end
  else Ret (NOTIFY_DONE, dev) s.

End DriverRest.

(** ** Module init and exit *)

(** What the module has registered with the kernel: the cache
    [dev_socket_cache], the protocol [proto_raw], the socket family, the
    netdevice notifier and the packet type. *)
Record module_state := {
  cache_created : bool;
  proto_registered : bool;
  family_registered : bool;
  notifier_registered : bool;
  pack_added : bool
}.

(** Nothing registered: the module before [arinc429_init]. *)
Definition unloaded : module_state :=
  {| cache_created := false; proto_registered := false;
     family_registered := false; notifier_registered := false;
     pack_added := false |}.

(** Answers of the kernel to [arinc429_init]: whether [kmem_cache_create]
    returns a cache, and the return values of [proto_register],
    [sock_register] and [register_netdevice_notifier]. *)
Record init_answers := {
  cache_ok : bool;
  proto_rc : Z;
  sock_rc : Z;
  notifier_rc : Z
}.

(** The kernel calls of [arinc429_init] and [arinc429_exit], as updates of
    what is registered. *)
Definition set_cache (b : bool) (m : module_state) : module_state :=
  {| cache_created := b; proto_registered := proto_registered m;
     family_registered := family_registered m;
     notifier_registered := notifier_registered m;
     pack_added := pack_added m |}.

Definition set_proto (b : bool) (m : module_state) : module_state :=
  {| cache_created := cache_created m; proto_registered := b;
     family_registered := family_registered m;
     notifier_registered := notifier_registered m;
     pack_added := pack_added m |}.

Definition set_family (b : bool) (m : module_state) : module_state :=
  {| cache_created := cache_created m; proto_registered := proto_registered m;
     family_registered := b;
     notifier_registered := notifier_registered m;
     pack_added := pack_added m |}.

Definition set_notifier (b : bool) (m : module_state) : module_state :=
  {| cache_created := cache_created m; proto_registered := proto_registered m;
     family_registered := family_registered m;
     notifier_registered := b;
     pack_added := pack_added m |}.

Definition set_pack (b : bool) (m : module_state) : module_state :=
  {| cache_created := cache_created m; proto_registered := proto_registered m;
     family_registered := family_registered m;
     notifier_registered := notifier_registered m;
     pack_added := b |}.

Definition kmem_cache_destroy := set_cache false.
Definition proto_unregister := set_proto false.
Definition sock_unregister := set_family false.
Definition unregister_netdevice_notifier := set_notifier false.
Definition dev_add_pack := set_pack true.
Definition dev_remove_pack := set_pack false.

(** [arinc429_init()]: a registration call that succeeds registers its
    object; the calls of each failure path are those of the source, in its
    order.  The notifications that [register_netdevice_notifier] replays
    for the devices that exist are calls of [arinc429_netdev_notifier]. *)
Definition arinc429_init (ans : init_answers) (m : module_state) : Z * module_state :=
  if negb (cache_ok ans) then (- ENOMEM, m)
  else
    let m1 := set_cache true m in
    if decide (proto_rc ans ≠ 0) then (proto_rc ans, kmem_cache_destroy m1)
    else
      let m2 := set_proto true m1 in
      if decide (sock_rc ans ≠ 0) then
        (sock_rc ans, kmem_cache_destroy (proto_unregister m2))
      else
        let m3 := set_family true m2 in
        if decide (notifier_rc ans ≠ 0) then
          (notifier_rc ans,
           kmem_cache_destroy (proto_unregister (sock_unregister m3)))
        else
          let m4 := set_notifier true m3 in
          (0, dev_add_pack m4).

(** [arinc429_exit()]: the return value of
    [unregister_netdevice_notifier] is only printed. *)
Definition arinc429_exit (m : module_state) : module_state :=
  kmem_cache_destroy
    (proto_unregister
       (sock_unregister
          (unregister_netdevice_notifier (dev_remove_pack m)))).

(** ** Sample configuration and states *)

(** Sample values for the constants of arinc429.h, used where the driver
    is run on concrete inputs; the general statements hold for every
    value. *)
Definition sample_h : arinc429_h :=
  {| ARPHRD_ARINC429 := 823; AF_ARINC429 := 45; ARINC429_PROTO_RAW := 1;
     sizeof_sockaddr_arinc429 := 8 |}.

(** An ARINC-429 device of [init_net], up, with a 32-byte MTU, whose socket
    list is the object at address [lp] (or detached). *)
Definition sample_dev (ifindex : Z) (lp : option ptr) : net_device :=
  {| dev_net := init_net; dev_ifindex := ifindex; dev_type := 823;
     dev_flags := 1; mtu := 32; ml_priv := lp |}.

Definition fresh_sock : proto_raw_sock :=
  {| sk_err := 0; sock_dead := false; sk_receive_queue := [];
     psk_ifindex := 0; bound := 0 |}.

(** Device 1 after [NETDEV_REGISTER]: an empty socket list at address 10;
    one unbound socket at address 100. *)
Definition state_empty_list : kstate :=
  {| netdevs := {[ 1 := sample_dev 1 (Some 10%positive) ]};
     sk_lists := {[ 10%positive :=
                    {| sl_head := []; remove_on_zero_entries := 0; entries := 0 |} ]};
     sk_infos := ∅;
     socks := {[ 100%positive := fresh_sock ]};
     klog := [] |}.

(** Device 1 with two sockets, 100 and 101, linked in its list by the
    entries at addresses 20 and 21. *)
Definition state_two_sockets : kstate :=
  {| netdevs := {[ 1 := sample_dev 1 (Some 10%positive) ]};
     sk_lists := {[ 10%positive :=
                    {| sl_head := [21; 20]%positive;
                       remove_on_zero_entries := 0; entries := 2 |} ]};
     sk_infos := {[ 20%positive := {| info_sk := 100%positive;
                                      ingress_func := fn_raw_ingress |};
                    21%positive := {| info_sk := 101%positive;
                                      ingress_func := fn_raw_ingress |} ]};
     socks := {[ 100%positive := set_bound 1 1 fresh_sock;
                 101%positive := set_bound 1 1 fresh_sock ]};
     klog := [] |}.

(** Device 1 with one socket, 100, linked by the entry at address 20. *)
Definition state_one_socket : kstate :=
  {| netdevs := {[ 1 := sample_dev 1 (Some 10%positive) ]};
     sk_lists := {[ 10%positive :=
                    {| sl_head := [20%positive];
                       remove_on_zero_entries := 0; entries := 1 |} ]};
     sk_infos := {[ 20%positive := {| info_sk := 100%positive;
                                      ingress_func := fn_raw_ingress |} ]};
     socks := {[ 100%positive := set_bound 1 1 fresh_sock ]};
     klog := [] |}.

Definition packet (len : Z) : sk_buff :=
  {| skb_len := len; skb_priv_ifindex := 0; skb_dev := 1; skb_sk := None |}.

(** Device 1 down; socket 100 is not bound, and the device's list holds an
    entry for it at address 20. *)
Definition state_down_device : kstate :=
  {| netdevs := {[ 1 := {| dev_net := init_net; dev_ifindex := 1;
                           dev_type := 823; dev_flags := 0; mtu := 32;
                           ml_priv := Some 10%positive |} ]};
     sk_lists := {[ 10%positive :=
                    {| sl_head := [20%positive];
                       remove_on_zero_entries := 0; entries := 1 |} ]};
     sk_infos := {[ 20%positive := {| info_sk := 100%positive;
                                      ingress_func := fn_raw_ingress |} ]};
     socks := {[ 100%positive := fresh_sock ]};
     klog := [] |}.

(** A message without an address: the target is the socket's interface. *)
Definition msg_no_name : msghdr :=
  {| msg_name := None; msg_namelen := 0; msg_flags := 0 |}.

(** The networking core allocates, copies and transmits without error. *)
Definition answers_ok : send_answers :=
  {| alloc_err := None; memcpy_ret := 0; xmit_ret := 0 |}.

(** ** Predicates used in the statements *)

(** Every node linked in the list is a live object of the cache. *)
Definition list_live (infos : gmap positive dev_socket_info) (nodes : list ptr) : Prop :=
  ∀ p, p ∈ nodes → is_Some (infos !! p).

(** The node [p] is linked in the list and records the pair
    ([sk], [f]). *)
Definition entry_for (infos : gmap positive dev_socket_info) (nodes : list ptr)
    (f : ingress_func_t) (sk : ptr) (p : ptr) : Prop :=
  p ∈ nodes ∧ infos !! p = Some {| info_sk := sk; ingress_func := f |}.

(** [dev_queue_xmit] accepted the buffer: [NET_XMIT_SUCCESS], or
    [NET_XMIT_CN], which [net_xmit_errno] turns into 0. *)
Definition xmit_accepted (r : Z) : Prop := r = 0 ∨ r = NET_XMIT_CN.

(** The interface index [proto_raw_sendmsg] takes from the message's
    address when there is one, and from the socket otherwise. *)
Definition send_target `{arinc429_h} (msg : msghdr) (sk : ptr) (s : kstate)
    (ifindex : Z) : Prop :=
  match msg_name msg with
  | Some addr =>
      sizeof_sockaddr_arinc429 <= to_size_t (msg_namelen msg)
      ∧ arinc429_family addr = AF_ARINC429
      ∧ ifindex = arinc429_ifindex addr
  | None => ∃ psk, socks s !! sk = Some psk ∧ ifindex = psk_ifindex psk
  end.

(** The list is well formed: its nodes are live and distinct, and its
    counter is their number. *)
Definition list_wf (infos : gmap positive dev_socket_info)
    (sk_list : dev_socket_list) : Prop :=
  list_live infos (sl_head sk_list)
  ∧ NoDup (sl_head sk_list)
  ∧ entries sk_list = Z.of_nat (length (sl_head sk_list)).

(** Every device of the interface table is filed under its own index. *)
Definition netdevs_consistent (s : kstate) : Prop :=
  ∀ i dev, netdevs s !! i = Some dev → dev_ifindex dev = i.

(** Everything registered: the module after a successful
    [arinc429_init]. *)
Definition loaded : module_state :=
  {| cache_created := true; proto_registered := true;
     family_registered := true; notifier_registered := true;
     pack_added := true |}.

(** Device 1 as it appears: no socket list attached, nothing allocated. *)
Definition state_new_device : kstate :=
  {| netdevs := {[ 1 := sample_dev 1 None ]};
     sk_lists := ∅; sk_infos := ∅; socks := ∅; klog := [] |}.

(** Device 1 is being removed: its list, which holds the entry of socket
    100, is marked for removal and still attached. *)
Definition state_pending_removal : kstate :=
  {| netdevs := {[ 1 := sample_dev 1 (Some 10%positive) ]};
     sk_lists := {[ 10%positive :=
                    {| sl_head := [20%positive];
                       remove_on_zero_entries := 1; entries := 1 |} ]};
     sk_infos := {[ 20%positive := {| info_sk := 100%positive;
                                      ingress_func := fn_raw_ingress |} ]};
     socks := {[ 100%positive := set_bound 1 1 fresh_sock ]};
     klog := [] |}.

(** Device 1 has been removed while socket 100 was registered: the list
    is marked and detached from the device, the entry is still linked. *)
Definition state_device_removed : kstate :=
  {| netdevs := {[ 1 := sample_dev 1 None ]};
     sk_lists := {[ 10%positive :=
                    {| sl_head := [20%positive];
                       remove_on_zero_entries := 1; entries := 1 |} ]};
     sk_infos := {[ 20%positive := {| info_sk := 100%positive;
                                      ingress_func := fn_raw_ingress |} ]};
     socks := {[ 100%positive := set_bound 1 1 fresh_sock ]};
     klog := [] |}.

(** The bind address of interface [i]. *)
Definition addr_of (i : Z) : sockaddr_arinc429 :=
  {| arinc429_family := 45; arinc429_ifindex := i |}.

(** The [struct socket] of socket 100. *)
Definition socket_100 : socket :=
  {| sock_state := 1; sock_ops := Some proto_raw_ops;
     sock_sk := Some 100%positive |}.

(** ** States the driver can reach *)

(** The state when the module is loaded: no device, no list, no socket. *)
Definition boot : kstate :=
  {| netdevs := ∅; sk_lists := ∅; sk_infos := ∅; socks := ∅; klog := [] |}.

(** The state a call leaves, whether it returns or not. *)
Definition outcome_state {A : Type} (r : result A) : kstate :=
  match r with
  | Ret _ s => s
  | Oops s => s
  | Undef s => s
  end.

Section Reach.

Context {hdr : arinc429_h}.

(** The states that sequences of calls of the driver's entry points lead
    to, from [boot].  Between the calls the host may change its interface
    table in any way (devices appear, change and go, and the device a
    notification has updated is filed); the lists, their entries and the
    sockets are changed by the driver only. *)
Inductive reachable : kstate → Prop :=
| reach_boot : reachable boot
| reach_host m s :
    reachable s → reachable (set_netdevs m s)
| reach_notifier msg dev alloc s :
    reachable s →
    reachable (outcome_state (arinc429_netdev_notifier msg dev alloc s))
| reach_create n sock protocol kern alloc s :
    reachable s →
    reachable (arinc429_sock_create n sock protocol kern alloc s).2
| reach_bind sk addr len alloc s :
    reachable s →
    reachable (outcome_state (proto_raw_bind sk addr len alloc s))
| reach_sendmsg sk msg size ans s :
    reachable s →
    reachable (outcome_state (proto_raw_sendmsg sk msg size ans s))
| reach_release sock last_ref s :
    reachable s →
    reachable (outcome_state (proto_raw_release sock last_ref s))
| reach_ingress skb dev s :
    reachable s →
    reachable (arinc429_packet_ingress skb dev s).2.

End Reach.




(** The same with device 1 down. *)
Definition down_dev : net_device :=
  {| dev_net := init_net; dev_ifindex := 1; dev_type := 823; dev_flags := 0;
     mtu := 32; ml_priv := Some 10%positive |}.

Definition state_down_and_socket : kstate :=
  (@arinc429_sock_create sample_h init_net
     {| sock_state := 0; sock_ops := None; sock_sk := None |} 1 0
     (Some 100%positive)
     (set_netdevs {[ 1 := down_dev ]}
        (outcome_state
           (@arinc429_netdev_notifier sample_h NETDEV_REGISTER
              (set_ml_priv None down_dev) (Some 10%positive)
              (set_netdevs {[ 1 := set_ml_priv None down_dev ]} boot))))).2.

(** ** Properties *)

Section Properties.

Context {hdr : arinc429_h}.

(** *** Traversals *)

Lemma same_socket_true f sk e :
  same_socket f sk e = true ↔ e = {| info_sk := sk; ingress_func := f |}.
Proof.
  unfold same_socket. destruct e as [sk0 f0]; simpl.
  rewrite andb_true_iff, !bool_decide_eq_true.
  split; [intros [-> ->]; reflexivity | intros [= -> ->]; auto].
Qed.

Lemma traversal_At infos t nodes p :
  hlist_for_each_entry_rcu infos t nodes = At p →
  p ∈ nodes ∧ ∃ e, infos !! p = Some e ∧ t e = true.
Proof.
  induction nodes as [|q rest IH]; simpl; [discriminate|].
  destruct (infos !! q) as [e|] eqn:Hq; [|discriminate].
  destruct (t e) eqn:Ht.
  - intros [= <-]. split; [left | eauto].
  - intros H. destruct (IH H) as [Hin Hex]. split; [by right | exact Hex].
Qed.

Lemma traversal_Null infos t nodes :
  list_live infos nodes →
  (∀ p e, p ∈ nodes → infos !! p = Some e → t e = false) →
  hlist_for_each_entry_rcu infos t nodes = Null.
Proof.
  induction nodes as [|q rest IH]; simpl; intros Hlive Hno; [reflexivity|].
  destruct (Hlive q) as [e He]; [left|]. rewrite He.
  rewrite (Hno q e); [|left|exact He].
  apply IH.
  - intros p Hp. apply Hlive. by right.
  - intros p e' Hp. apply Hno. by right.
Qed.

Lemma traversal_finds infos t nodes q e :
  list_live infos nodes → q ∈ nodes → infos !! q = Some e → t e = true →
  ∃ p, hlist_for_each_entry_rcu infos t nodes = At p.
Proof.
  induction nodes as [|r rest IH]; simpl; intros Hlive Hq He Ht.
  - by apply elem_of_nil in Hq.
  - destruct (Hlive r) as [e' He']; [left|]. rewrite He'.
    destruct (t e') eqn:Ht'; [eauto|].
    apply elem_of_cons in Hq as [->|Hq]; [congruence|].
    apply IH; auto. intros p Hp. apply Hlive. by right.
Qed.

(** A traversal that does not fault is not affected by the allocation of a
    new object. *)
Lemma traversal_insert_fresh infos t nodes new e :
  infos !! new = None →
  (∀ p, hlist_for_each_entry_rcu infos t nodes ≠ Wild p) →
  hlist_for_each_entry_rcu (<[new := e]> infos) t nodes
  = hlist_for_each_entry_rcu infos t nodes.
Proof.
  intros Hfresh. induction nodes as [|q rest IH]; simpl; intros Hw; [reflexivity|].
  destruct (infos !! q) as [e0|] eqn:Hq.
  - rewrite lookup_insert_ne by congruence. rewrite Hq.
    destruct (t e0); [reflexivity|]. apply IH. exact Hw.
  - exfalso. by apply (Hw q).
Qed.

(** Registration does not touch the sockets, the interface table or the
    log. *)
Lemma dev_register_socket_frame dev f sk alloc s v s' :
  dev_register_socket dev f sk alloc s = Ret v s' →
  socks s' = socks s ∧ netdevs s' = netdevs s ∧ klog s' = klog s.
Proof.
  unfold dev_register_socket.
  repeat (case_decide || case_match); simpl; intros [= <- <-]; auto;
    try discriminate.
Qed.

(** *** Ingress *)


(** C5: a packet whose length is not a multiple of the word size is dropped
    on every device and in every state: the handler returns [NET_RX_DROP],
    frees the buffer and changes nothing else, so no socket receives it. *)
Theorem ingress_drops_unaligned_packet skb dev s :
  skb_len skb mod ARINC429_WORD_SIZE ≠ 0 →
  arinc429_packet_ingress skb dev s = (NET_RX_DROP, emit (EvKfreeSkb skb) s)
  ∧ socks (arinc429_packet_ingress skb dev s).2 = socks s.
Proof.
  intros Hlen.
  assert (Hrun : arinc429_packet_ingress skb dev s
                 = (NET_RX_DROP, emit (EvKfreeSkb skb) s)).
  { unfold arinc429_packet_ingress.
    case_decide; [reflexivity|].
    rewrite (bool_decide_eq_true_2 (skb_len skb mod ARINC429_WORD_SIZE ≠ 0))
      by exact Hlen.
    rewrite orb_true_r. reflexivity. }
  split; [exact Hrun | by rewrite Hrun].
Qed.

(** *** Socket lists *)


(** C3: registering a pair that no entry of the list records does not
    insert anything.  The traversal leaves the variable [sk_info] NULL, so
    [hlist_add_head_rcu] is given a NULL node: the call faults with the
    spin lock held, the new object is left allocated and unlinked, and the
    list and its counter are as before. *)
Theorem register_unmatched_pair_faults dev f sk new s lp sk_list :
  dev_type dev = ARPHRD_ARINC429 →
  ml_priv dev = Some lp →
  sk_lists s !! lp = Some sk_list →
  list_live (sk_infos s) (sl_head sk_list) →
  (∀ p, ¬ entry_for (sk_infos s) (sl_head sk_list) f sk p) →
  sk_infos s !! new = None →
  ∃ s',
    dev_register_socket dev f sk (Some new) s = Oops s'
    ∧ sk_lists s' = sk_lists s
    ∧ sk_infos s' = <[new := {| info_sk := sk; ingress_func := f |}]> (sk_infos s)
    ∧ new ∉ sl_head sk_list.
Proof.
  intros Htype Hpriv Hlist Hlive Hno Hfresh.
  assert (Hnull : hlist_for_each_entry_rcu (sk_infos s) (same_socket f sk)
                    (sl_head sk_list) = Null).
  { apply traversal_Null; [exact Hlive|].
    intros p e Hp He. destruct (same_socket f sk e) eqn:Hs; [|reflexivity].
    apply same_socket_true in Hs. subst e. exfalso. by apply (Hno p). }
  unfold dev_register_socket.
  rewrite decide_False by (intros Hne; exact (Hne Htype)).
  rewrite Hpriv. simpl. rewrite Hlist.
  rewrite traversal_insert_fresh; [|exact Hfresh|rewrite Hnull; discriminate].
  rewrite Hnull. simpl.
  eexists. split; [reflexivity|].
  split; [reflexivity|]. split; [reflexivity|].
  intros Hin. destruct (Hlive new Hin) as [e He]. congruence.
Qed.

(** C4: registering a pair that an entry of the list already records
    returns 0 and leaves the list and its counter as they were, but the
    object it frees is the matching entry [p], which stays linked in the
    list; the newly allocated object is not freed. *)
Theorem register_duplicate_frees_linked_entry dev f sk new s lp sk_list q :
  dev_type dev = ARPHRD_ARINC429 →
  ml_priv dev = Some lp →
  sk_lists s !! lp = Some sk_list →
  list_live (sk_infos s) (sl_head sk_list) →
  entry_for (sk_infos s) (sl_head sk_list) f sk q →
  sk_infos s !! new = None →
  ∃ p s',
    entry_for (sk_infos s) (sl_head sk_list) f sk p
    ∧ dev_register_socket dev f sk (Some new) s = Ret 0 s'
    ∧ sk_lists s' = sk_lists s
    ∧ sk_infos s' !! p = None
    ∧ sk_infos s' !! new = Some {| info_sk := sk; ingress_func := f |}.
Proof.
  intros Htype Hpriv Hlist Hlive [Hq He] Hfresh.
  destruct (traversal_finds (sk_infos s) (same_socket f sk) (sl_head sk_list)
              q _ Hlive Hq He) as [p Hp].
  { by apply same_socket_true. }
  destruct (traversal_At _ _ _ _ Hp) as [Hin [e [Hpe Hsame]]].
  apply same_socket_true in Hsame. subst e.
  exists p. eexists. split; [by split|].
  unfold dev_register_socket.
  rewrite decide_False by (intros Hne; exact (Hne Htype)).
  rewrite Hpriv. simpl. rewrite Hlist.
  rewrite traversal_insert_fresh; [|exact Hfresh|rewrite Hp; discriminate].
  rewrite Hp.
  split; [reflexivity|]. split; [reflexivity|]. simpl.
  assert (p ≠ new) by congruence.
  split; [apply lookup_delete_eq|].
  rewrite lookup_delete_ne by done. apply lookup_insert_eq.
Qed.

(** *** Raw protocol: sendmsg *)

Lemma to_int_small z : 0 <= z <= INT_MAX → to_int z = z.
Proof.
  unfold to_int, INT_MAX. intros Hz.
  rewrite Z.mod_small by lia. lia.
Qed.

(** C6 (as the code has it): a send whose size is not a multiple of the word
    size returns [-EINVAL] at once; the state, log of calls included, is
    unchanged, so no device was looked up, no buffer allocated and nothing
    transmitted. *)
Theorem sendmsg_rejects_unaligned_size sk msg size ans s :
  size mod ARINC429_WORD_SIZE ≠ 0 →
  proto_raw_sendmsg sk msg size ans s = Ret (- EINVAL) s.
Proof.
  intros Hsize. unfold proto_raw_sendmsg.
  rewrite decide_True by exact Hsize. reflexivity.
Qed.

(** C7: on a resolved ARINC-429 device that is up, a word-aligned send
    larger than the MTU returns [-EMSGSIZE]; one that fits (size equal to
    the MTU included), whose buffer is allocated and filled and accepted by
    [dev_queue_xmit], returns exactly [size], after one transmit call for a
    buffer of [size] bytes. *)
Theorem sendmsg_mtu_and_full_length sk msg size ans s ifindex dev :
  0 <= size <= INT_MAX →
  size mod ARINC429_WORD_SIZE = 0 →
  send_target msg sk s ifindex →
  netdevs s !! ifindex = Some dev →
  dev_type dev = ARPHRD_ARINC429 →
  Z.land (dev_flags dev) IFF_UP ≠ 0 →
  (size > mtu dev →
     ∃ s', proto_raw_sendmsg sk msg size ans s = Ret (- EMSGSIZE) s'
           ∧ klog s' = klog s ++ [EvDevGet ifindex; EvDevPut (dev_ifindex dev)])
  ∧ (size <= mtu dev →
     alloc_err ans = None → 0 <= memcpy_ret ans → xmit_accepted (xmit_ret ans) →
     ∃ s' skb,
       proto_raw_sendmsg sk msg size ans s = Ret size s'
       ∧ skb_len skb = size
       ∧ klog s' = klog s ++ [EvDevGet ifindex;
                              EvAllocSkb sk (size + sizeof_arinc429_skb_priv);
                              EvXmit skb;
                              EvDevPut (dev_ifindex dev)]).
Proof.
  intros Hrange Hsize Htarget Hdev Htype Hup.
  assert (Hentry : proto_raw_sendmsg sk msg size ans s
                   = sendmsg_on_ifindex sk size ans ifindex s).
  { unfold proto_raw_sendmsg.
    rewrite decide_False by (intros Hne; exact (Hne Hsize)).
    unfold send_target in Htarget.
    destruct (msg_name msg) as [addr|].
    - destruct Htarget as (Hlen & Hfam & ->).
      rewrite decide_False by lia.
      rewrite decide_False by (intros Hne; exact (Hne Hfam)).
      reflexivity.
    - destruct Htarget as (psk & -> & ->). reflexivity. }
  rewrite Hentry. unfold sendmsg_on_ifindex. cbn zeta.
  change (netdevs (emit (EvDevGet ifindex) s)) with (netdevs s).
  rewrite Hdev.
  rewrite decide_False by (intros Hne; exact (Hne Htype)).
  split.
  - intros Hbig. rewrite decide_True by exact Hbig.
    eexists. split; [reflexivity|]. simpl. by rewrite <- app_assoc.
  - intros Hfit Halloc Hcopy Hxmit.
    rewrite decide_False by lia.
    rewrite decide_False by exact Hup.
    rewrite Halloc.
    rewrite decide_False by lia.
    assert (Herr : (if decide (xmit_ret ans > 0)
                    then net_xmit_errno (xmit_ret ans) else xmit_ret ans) = 0).
    { destruct Hxmit as [-> | ->]; reflexivity. }
    rewrite Herr. rewrite decide_False by (intros Hne; by apply Hne).
    rewrite to_int_small by exact Hrange.
    eexists _, {| skb_len := size; skb_priv_ifindex := dev_ifindex dev;
                  skb_dev := dev_ifindex dev; skb_sk := Some sk |}.
    split; [reflexivity|]. split; [reflexivity|].
    simpl. by rewrite <- !app_assoc.
Qed.

(** *** Raw protocol: bind *)

(** *** Socket creator *)

(** C10: a socket requested from a namespace other than [init_net] is
    refused with [-EAFNOSUPPORT] whatever the protocol number is; only the
    socket's state member has been written, [sk_alloc] has not been called
    and the kernel state is unchanged. *)
Theorem sock_create_refused_outside_init_net n sock protocol kern alloc s :
  n ≠ init_net →
  arinc429_sock_create n sock protocol kern alloc s
  = (- EAFNOSUPPORT,
     {| sock_state := SS_UNCONNECTED; sock_ops := sock_ops sock;
        sock_sk := sock_sk sock |},
     s).
Proof.
  intros Hn. unfold arinc429_sock_create.
  rewrite decide_True by exact Hn. reflexivity.
Qed.

End Properties.

(** ** The driver on concrete inputs *)

(** C5 on a 6-byte packet, in a state whose list links two entries. *)
Lemma ingress_six_bytes_dropped :
  @arinc429_packet_ingress sample_h (packet 6)
    (sample_dev 1 (Some 10%positive)) state_two_sockets
  = (NET_RX_DROP, emit (EvKfreeSkb (packet 6)) state_two_sockets)
  ∧ socks (@arinc429_packet_ingress sample_h (packet 6)
             (sample_dev 1 (Some 10%positive)) state_two_sockets).2
    = socks state_two_sockets.
Proof.
  apply (@ingress_drops_unaligned_packet sample_h). vm_compute. discriminate.
Defined.

(** C3 at a device with an empty list: the first registration faults. *)
Lemma register_on_empty_list_faults :
  ∃ s',
    @dev_register_socket sample_h (sample_dev 1 (Some 10%positive))
      fn_raw_ingress 100%positive (Some 20%positive) state_empty_list
    = Oops s'
    ∧ sk_lists s' = sk_lists state_empty_list
    ∧ sk_infos s'
      = <[20%positive := {| info_sk := 100%positive;
                            ingress_func := fn_raw_ingress |}]>
          (sk_infos state_empty_list)
    ∧ 20%positive ∉ ([] : list positive).
Proof.
  apply (@register_unmatched_pair_faults sample_h
           (sample_dev 1 (Some 10%positive)) fn_raw_ingress 100%positive
           20%positive state_empty_list 10%positive
           {| sl_head := []; remove_on_zero_entries := 0; entries := 0 |}).
  - reflexivity.
  - reflexivity.
  - reflexivity.
  - intros p Hp. simpl in Hp. inversion Hp.
  - intros p [Hp _]. simpl in Hp. inversion Hp.
  - reflexivity.
Defined.

(** C4 at a device whose list holds the entry 20 for socket 100: the
    second registration frees the linked entry. *)
Lemma register_again_frees_entry :
  ∃ p s',
    entry_for (sk_infos state_one_socket) [20%positive] fn_raw_ingress
      100%positive p
    ∧ @dev_register_socket sample_h (sample_dev 1 (Some 10%positive))
        fn_raw_ingress 100%positive (Some 21%positive) state_one_socket
      = Ret 0 s'
    ∧ sk_lists s' = sk_lists state_one_socket
    ∧ sk_infos s' !! p = None
    ∧ sk_infos s' !! 21%positive
      = Some {| info_sk := 100%positive; ingress_func := fn_raw_ingress |}.
Proof.
  apply (@register_duplicate_frees_linked_entry sample_h
           (sample_dev 1 (Some 10%positive)) fn_raw_ingress 100%positive
           21%positive state_one_socket 10%positive
           {| sl_head := [20%positive]; remove_on_zero_entries := 0;
              entries := 1 |} 20%positive).
  - reflexivity.
  - reflexivity.
  - reflexivity.
  - intros p Hp. simpl in Hp. apply list_elem_of_singleton in Hp. subst p.
    eexists. reflexivity.
  - split; [simpl; apply list_elem_of_singleton; reflexivity | reflexivity].
  - reflexivity.
Defined.

(** C6: a send of 6 bytes is refused and changes nothing. *)
Lemma sendmsg_six_bytes_refused :
  @proto_raw_sendmsg sample_h 100%positive msg_no_name 6 answers_ok
    state_one_socket
  = Ret (- EINVAL) state_one_socket.
Proof.
  apply (@sendmsg_rejects_unaligned_size sample_h). vm_compute. discriminate.
Defined.

(** C6: a send of 0 bytes is not a positive multiple of the word size, yet
    it is not refused: on a bound socket whose device is up it looks the
    device up, allocates a buffer, transmits it and returns 0. *)
Lemma sendmsg_zero_bytes_is_transmitted :
  ¬ (0 < 0 ∧ 0 mod ARINC429_WORD_SIZE = 0)
  ∧ @proto_raw_sendmsg sample_h 100%positive msg_no_name 0 answers_ok
      state_one_socket
    ≠ Ret (- EINVAL) state_one_socket
  ∧ ∃ s',
      @proto_raw_sendmsg sample_h 100%positive msg_no_name 0 answers_ok
        state_one_socket = Ret 0 s'
      ∧ klog s'
        = [EvDevGet 1; EvAllocSkb 100%positive 4;
           EvXmit {| skb_len := 0; skb_priv_ifindex := 1; skb_dev := 1;
                     skb_sk := Some 100%positive |};
           EvDevPut 1].
Proof.
  split; [lia|]. split.
  - vm_compute. discriminate.
  - eexists. split; vm_compute; reflexivity.
Qed.

(** C7: on a device with a 32-byte MTU, a send of 32 bytes returns 32 and
    a send of 36 bytes returns [-EMSGSIZE]. *)
Lemma sendmsg_at_and_above_mtu :
  (∃ s' skb,
     @proto_raw_sendmsg sample_h 100%positive msg_no_name 32 answers_ok
       state_one_socket = Ret 32 s'
     ∧ skb_len skb = 32
     ∧ klog s'
       = klog state_one_socket
           ++ [EvDevGet 1; EvAllocSkb 100%positive (32 + sizeof_arinc429_skb_priv);
               EvXmit skb; EvDevPut (dev_ifindex (sample_dev 1 (Some 10%positive)))])
  ∧ (∃ s',
       @proto_raw_sendmsg sample_h 100%positive msg_no_name 36 answers_ok
         state_one_socket = Ret (- EMSGSIZE) s'
       ∧ klog s'
         = klog state_one_socket
             ++ [EvDevGet 1; EvDevPut (dev_ifindex (sample_dev 1 (Some 10%positive)))]).
Proof.
  split.
  - apply (@sendmsg_mtu_and_full_length sample_h 100%positive msg_no_name 32
             answers_ok state_one_socket 1 (sample_dev 1 (Some 10%positive))).
    + unfold INT_MAX. lia.
    + reflexivity.
    + eexists. split; reflexivity.
    + reflexivity.
    + reflexivity.
    + vm_compute. discriminate.
    + simpl. lia.
    + reflexivity.
    + simpl. lia.
    + left. reflexivity.
  - apply (@sendmsg_mtu_and_full_length sample_h 100%positive msg_no_name 36
             answers_ok state_one_socket 1 (sample_dev 1 (Some 10%positive))).
    + unfold INT_MAX. lia.
    + reflexivity.
    + eexists. split; reflexivity.
    + reflexivity.
    + reflexivity.
    + vm_compute. discriminate.
    + simpl. lia.
Defined.

(** C10: a raw socket requested from another namespace is refused. *)
Lemma sock_create_other_net_example :
  @arinc429_sock_create sample_h (other_net 1)
    {| sock_state := 0; sock_ops := None; sock_sk := None |} 1 0
    (Some 100%positive) state_empty_list
  = (- EAFNOSUPPORT,
     {| sock_state := SS_UNCONNECTED; sock_ops := None; sock_sk := None |},
     state_empty_list).
Proof.
  apply (@sock_create_refused_outside_init_net sample_h). discriminate.
Defined.

(** The first bind of a socket to a device reaches the registration of an
    unmatched pair, and faults with it. *)
Lemma first_bind_faults :
  ∃ s',
    @proto_raw_bind sample_h 100%positive
      {| arinc429_family := 45; arinc429_ifindex := 1 |} 8
      (Some 20%positive) state_empty_list = Oops s'
    ∧ sk_lists s' = sk_lists state_empty_list
    ∧ socks s' = socks state_empty_list.
Proof.
  eexists. split; [vm_compute; reflexivity|]. split; reflexivity.
Qed.

(** ** Further properties of the driver *)

Section MoreProperties.

Context {hdr : arinc429_h}.

(** *** Unlinking a node *)

Lemma hlist_del_rcu_elem_of n h p :
  p ∈ hlist_del_rcu n h → p ∈ h.
Proof.
  induction h as [|q rest IH]; simpl; [done|].
  case_decide.
  - intros Hp. by right.
  - intros Hp. apply elem_of_cons in Hp as [->|Hp]; [left | right; auto].
Qed.

Lemma hlist_del_rcu_gone n h :
  NoDup h → n ∉ hlist_del_rcu n h.
Proof.
  induction h as [|q rest IH]; simpl; intros Hnd.
  - apply not_elem_of_nil.
  - apply NoDup_cons in Hnd as [Hq Hrest]. case_decide.
    + by subst q.
    + intros Hn. apply elem_of_cons in Hn as [->|Hn]; [done|].
      by apply IH.
Qed.

Lemma hlist_del_rcu_NoDup n h :
  NoDup h → NoDup (hlist_del_rcu n h).
Proof.
  induction h as [|q rest IH]; simpl; intros Hnd; [constructor|].
  apply NoDup_cons in Hnd as [Hq Hrest]. case_decide; [done|].
  apply NoDup_cons. split; [|auto].
  intros Hin. apply Hq. by apply hlist_del_rcu_elem_of in Hin.
Qed.

Lemma hlist_del_rcu_length n h :
  n ∈ h → Z.of_nat (length (hlist_del_rcu n h)) = Z.of_nat (length h) - 1.
Proof.
  induction h as [|q rest IH]; simpl; intros Hn.
  - by apply elem_of_nil in Hn.
  - case_decide.
    + lia.
    + apply elem_of_cons in Hn as [->|Hn]; [done|].
      simpl. specialize (IH Hn). lia.
Qed.

Lemma to_int_range z : - 2 ^ 31 <= z < 2 ^ 31 → to_int z = z.
Proof. unfold to_int. intros Hz. rewrite Z.mod_small by lia. lia. Qed.

(** *** Socket lists *)

(** A traversal that stops at [p] stops at the first node that passes the
    test: the nodes before [p] are live and fail it. *)
Lemma traversal_At_first infos t nodes p :
  hlist_for_each_entry_rcu infos t nodes = At p →
  ∃ before after,
    nodes = before ++ p :: after
    ∧ ∀ r, r ∈ before → ∃ e, infos !! r = Some e ∧ t e = false.
Proof.
  induction nodes as [|q rest IH]; simpl; [discriminate|].
  destruct (infos !! q) as [e|] eqn:Hq; [|discriminate].
  destruct (t e) eqn:Ht.
  - intros [= <-]. exists [], rest. split; [reflexivity|].
    intros r Hr. by apply elem_of_nil in Hr.
  - intros H. destruct (IH H) as (before & after & -> & Hb).
    exists (q :: before), after. split; [reflexivity|].
    intros r Hr. apply elem_of_cons in Hr as [->|Hr]; eauto.
Qed.

Lemma hlist_del_rcu_split n before after :
  n ∉ before → hlist_del_rcu n (before ++ n :: after) = before ++ after.
Proof.
  induction before as [|q rest IH]; simpl; intros Hn.
  - by rewrite decide_True.
  - apply not_elem_of_cons in Hn as [Hne Hn].
    rewrite decide_False by congruence. by rewrite IH.
Qed.

(** Registration, when it returns, leaves the socket lists alone. *)
Lemma dev_register_socket_lists dev f sk alloc s v s' :
  dev_register_socket dev f sk alloc s = Ret v s' →
  sk_lists s' = sk_lists s.
Proof.
  unfold dev_register_socket, hlist_add_head_rcu.
  repeat (case_decide || case_match); simpl; try discriminate;
    intros [= <- <-]; auto.
Qed.

(** X1: whenever [dev_register_socket] returns, every socket list is as it
    was: no call links an entry or changes a counter.  The value returned
    is 0, [-ENODEV] or [-ENOMEM]. *)
Theorem register_never_links dev f sk alloc s v s' :
  dev_register_socket dev f sk alloc s = Ret v s' →
  sk_lists s' = sk_lists s ∧ (v = 0 ∨ v = - ENODEV ∨ v = - ENOMEM).
Proof.
  unfold dev_register_socket, hlist_add_head_rcu.
  repeat (case_decide || case_match); simpl; try discriminate;
    intros [= <- <-]; auto.
Qed.

(** X2: once [dev_remove_socket_list] has run on a device, every
    registration on that device is refused with [-ENODEV] and changes
    nothing. *)
Theorem register_after_remove_refused dev s lp sk_list :
  ml_priv dev = Some lp →
  sk_lists s !! lp = Some sk_list →
  ∃ dev' s',
    dev_remove_socket_list dev s = Ret dev' s'
    ∧ ∀ f sk alloc, dev_register_socket dev' f sk alloc s' = Ret (- ENODEV) s'.
Proof.
  intros Hpriv Hlist. unfold dev_remove_socket_list. rewrite Hpriv, Hlist.
  eexists _, _. split; [reflexivity|].
  intros f sk alloc. unfold dev_register_socket. simpl.
  case_decide; reflexivity.
Qed.

(** Unregistration of a registered pair on a well-formed list that is not
    marked for removal. *)
Lemma unregister_found_entry dev f sk s lp sk_list q :
  dev_type dev = ARPHRD_ARINC429 →
  ml_priv dev = Some lp →
  sk_lists s !! lp = Some sk_list →
  list_wf (sk_infos s) sk_list →
  entries sk_list <= INT_MAX →
  remove_on_zero_entries sk_list = 0 →
  entry_for (sk_infos s) (sl_head sk_list) f sk q →
  ∃ p s' sk_list',
    entry_for (sk_infos s) (sl_head sk_list) f sk p
    ∧ dev_unregister_socket dev f sk s = Ret dev s'
    ∧ sk_lists s' !! lp = Some sk_list'
    ∧ sl_head sk_list' = hlist_del_rcu p (sl_head sk_list)
    ∧ (p ∉ sl_head sk_list')
    ∧ entries sk_list' = entries sk_list - 1
    ∧ sk_infos s' = delete p (sk_infos s)
    ∧ list_wf (sk_infos s') sk_list'
    ∧ ∃ before after,
        sl_head sk_list = before ++ p :: after
        ∧ (∀ r, r ∈ before →
             ¬ entry_for (sk_infos s) (sl_head sk_list) f sk r)
        ∧ sl_head sk_list' = before ++ after.
Proof.
  intros Htype Hpriv Hlist (Hlive & Hnd & Hcount) Hmax Hflag [Hq He].
  destruct (traversal_finds (sk_infos s) (same_socket f sk) (sl_head sk_list)
              q _ Hlive Hq He) as [p Hp].
  { by apply same_socket_true. }
  destruct (traversal_At _ _ _ _ Hp) as [Hin [e [Hpe Hsame]]].
  apply same_socket_true in Hsame. subst e.
  assert (Hlen := hlist_del_rcu_length p (sl_head sk_list) Hin).
  assert (Hpos : 1 <= entries sk_list).
  { rewrite Hcount. destruct (sl_head sk_list); [by apply elem_of_nil in Hin|].
    simpl. lia. }
  assert (Hdec : to_int (entries sk_list - 1) = entries sk_list - 1).
  { apply to_int_range. unfold INT_MAX in Hmax. lia. }
  exists p. eexists _, _. split; [by split|].
  unfold dev_unregister_socket.
  rewrite decide_False by (intros Hne; exact (Hne Htype)).
  rewrite Hpriv, Hlist, Hp. cbn zeta.
  rewrite decide_False by (intros [Hne _]; exact (Hne Hflag)).
  split; [reflexivity|]. simpl.
  split; [apply lookup_insert_eq|]. simpl.
  split; [reflexivity|].
  split; [by apply hlist_del_rcu_gone|].
  split; [exact Hdec|].
  split; [reflexivity|].
  split; [split; [|split]|].
  - intros r Hr. assert (r ≠ p).
    { intros ->. by apply (hlist_del_rcu_gone p (sl_head sk_list)). }
    rewrite lookup_delete_ne by done.
    apply Hlive. by apply hlist_del_rcu_elem_of in Hr.
  - by apply hlist_del_rcu_NoDup.
  - simpl. rewrite Hdec, Hlen. lia.
  - destruct (traversal_At_first _ _ _ _ Hp) as (before & after & Heq & Hb).
    assert (Hnotin : p ∉ before).
    { rewrite Heq in Hnd. apply NoDup_app in Hnd as (_ & Hdis & _).
      intros Hpb. apply (Hdis p Hpb). left. }
    exists before, after. split; [exact Heq|]. split.
    + intros r Hr [_ Hre]. destruct (Hb r Hr) as (e & He' & Hf).
      rewrite Hre in He'. injection He' as <-.
      assert (same_socket f sk {| info_sk := sk; ingress_func := f |} = true)
        by by apply same_socket_true.
      congruence.
    + simpl. rewrite Heq. by apply hlist_del_rcu_split.
Qed.

(** X3: on a well-formed list that is not marked for removal,
    [dev_unregister_socket] of a registered pair unlinks and frees the first
    entry of that pair (no node before it in the list records the pair; the
    nodes before and after it stay linked, in order), lowers the counter by
    one, leaves the list attached, and the list is well formed again. *)
Theorem unregister_unlinks_entry dev f sk s lp sk_list q :
  dev_type dev = ARPHRD_ARINC429 →
  ml_priv dev = Some lp →
  sk_lists s !! lp = Some sk_list →
  list_wf (sk_infos s) sk_list →
  entries sk_list <= INT_MAX →
  remove_on_zero_entries sk_list = 0 →
  entry_for (sk_infos s) (sl_head sk_list) f sk q →
  ∃ p s' sk_list',
    entry_for (sk_infos s) (sl_head sk_list) f sk p
    ∧ dev_unregister_socket dev f sk s = Ret dev s'
    ∧ sk_lists s' !! lp = Some sk_list'
    ∧ sl_head sk_list' = hlist_del_rcu p (sl_head sk_list)
    ∧ (p ∉ sl_head sk_list')
    ∧ entries sk_list' = entries sk_list - 1
    ∧ sk_infos s' = delete p (sk_infos s)
    ∧ list_wf (sk_infos s') sk_list'
    ∧ ∃ before after,
        sl_head sk_list = before ++ p :: after
        ∧ (∀ r, r ∈ before →
             ¬ entry_for (sk_infos s) (sl_head sk_list) f sk r)
        ∧ sl_head sk_list' = before ++ after.
Proof.
  intros Htype Hpriv Hlist Hwf Hmax Hflag Hentry.
  exact (unregister_found_entry dev f sk s lp sk_list q
           Htype Hpriv Hlist Hwf Hmax Hflag Hentry).
Qed.

(** X4: on a list marked for removal that counts one entry,
    [dev_unregister_socket] of the registered pair frees the entry and the
    list, and detaches the list from the device. *)
Theorem unregister_drains_marked_list dev f sk s lp sk_list q :
  dev_type dev = ARPHRD_ARINC429 →
  ml_priv dev = Some lp →
  sk_lists s !! lp = Some sk_list →
  list_live (sk_infos s) (sl_head sk_list) →
  remove_on_zero_entries sk_list ≠ 0 →
  entries sk_list = 1 →
  entry_for (sk_infos s) (sl_head sk_list) f sk q →
  ∃ p dev' s',
    entry_for (sk_infos s) (sl_head sk_list) f sk p
    ∧ dev_unregister_socket dev f sk s = Ret dev' s'
    ∧ ml_priv dev' = None
    ∧ sk_lists s' !! lp = None
    ∧ sk_infos s' = delete p (sk_infos s).
Proof.
  intros Htype Hpriv Hlist Hlive Hflag Hone [Hq He].
  destruct (traversal_finds (sk_infos s) (same_socket f sk) (sl_head sk_list)
              q _ Hlive Hq He) as [p Hp].
  { by apply same_socket_true. }
  destruct (traversal_At _ _ _ _ Hp) as [Hin [e [Hpe Hsame]]].
  apply same_socket_true in Hsame. subst e.
  exists p. eexists _, _. split; [by split|].
  unfold dev_unregister_socket.
  rewrite decide_False by (intros Hne; exact (Hne Htype)).
  rewrite Hpriv, Hlist, Hp. cbn zeta.
  rewrite decide_True by (split; [exact Hflag | rewrite Hone; by vm_compute]).
  split; [reflexivity|]. split; [reflexivity|].
  split; [simpl; apply lookup_delete_eq | reflexivity].
Qed.

(** X5: [dev_unregister_socket] of a pair that no entry of the list records
    changes nothing. *)
Theorem unregister_unknown_pair_unchanged dev f sk s lp sk_list :
  ml_priv dev = Some lp →
  sk_lists s !! lp = Some sk_list →
  list_live (sk_infos s) (sl_head sk_list) →
  (∀ p, ¬ entry_for (sk_infos s) (sl_head sk_list) f sk p) →
  dev_unregister_socket dev f sk s = Ret dev s.
Proof.
  intros Hpriv Hlist Hlive Hno.
  unfold dev_unregister_socket. case_decide; [reflexivity|].
  rewrite Hpriv, Hlist.
  rewrite traversal_Null; [reflexivity | exact Hlive |].
  intros p e Hp He. destruct (same_socket f sk e) eqn:Hs; [|reflexivity].
  apply same_socket_true in Hs. subst e. exfalso. by apply (Hno p).
Qed.

(** Attaching a fresh list and removing it restores the device and the
    state. *)
Lemma add_then_remove_socket_list dev lp s :
  ml_priv dev = None →
  sk_lists s !! lp = None →
  ∃ dev1 s1,
    dev_add_socket_list dev (Some lp) s = (0, dev1, s1)
    ∧ ml_priv dev1 = Some lp
    ∧ sk_lists s1 !! lp
      = Some {| sl_head := []; remove_on_zero_entries := 0; entries := 0 |}
    ∧ dev_remove_socket_list dev1 s1 = Ret dev s.
Proof.
  intros Hpriv Hfresh. unfold dev_add_socket_list. rewrite Hpriv.
  eexists _, _. split; [reflexivity|]. split; [reflexivity|].
  split; [simpl; apply lookup_insert_eq|].
  unfold dev_remove_socket_list. simpl. rewrite lookup_insert_eq. simpl.
  f_equal.
  - destruct dev; simpl in *. subst. reflexivity.
  - unfold kfree, set_sk_lists. simpl.
    rewrite insert_insert_eq, delete_insert_eq, delete_id by exact Hfresh.
    by destruct s.
Qed.

(** *** Netdevice notifier *)

(** X7: the notifier does nothing for a device outside [init_net], for a
    device that is not an ARINC-429 device, and for every event other than
    [NETDEV_REGISTER] and [NETDEV_UNREGISTER]. *)
Theorem notifier_ignores_unrelated msg dev alloc s :
  dev_net dev ≠ init_net ∨ dev_type dev ≠ ARPHRD_ARINC429
  ∨ (msg ≠ NETDEV_REGISTER ∧ msg ≠ NETDEV_UNREGISTER) →
  arinc429_netdev_notifier msg dev alloc s = Ret (NOTIFY_DONE, dev) s.
Proof.
  unfold arinc429_netdev_notifier.
  intros [H | [H | [H1 H2]]]; repeat case_decide; try reflexivity; done.
Qed.

(** X8: for an ARINC-429 device of [init_net] without a socket list,
    [NETDEV_REGISTER] attaches an empty list, and [NETDEV_UNREGISTER] right
    after it frees the list again: device and state are as before. *)
Theorem notifier_register_unregister dev lp alloc' s :
  dev_net dev = init_net →
  dev_type dev = ARPHRD_ARINC429 →
  ml_priv dev = None →
  sk_lists s !! lp = None →
  ∃ dev1 s1,
    arinc429_netdev_notifier NETDEV_REGISTER dev (Some lp) s
    = Ret (NOTIFY_DONE, dev1) s1
    ∧ ml_priv dev1 = Some lp
    ∧ sk_lists s1 !! lp
      = Some {| sl_head := []; remove_on_zero_entries := 0; entries := 0 |}
    ∧ arinc429_netdev_notifier NETDEV_UNREGISTER dev1 alloc' s1
      = Ret (NOTIFY_DONE, dev) s.
Proof.
  intros Hnet Htype Hpriv Hfresh.
  destruct (add_then_remove_socket_list dev lp s Hpriv Hfresh)
    as (dev1 & s1 & Hadd & Hp1 & Hl1 & Hrem).
  assert (Hnet1 : dev_net dev1 = init_net ∧ dev_type dev1 = ARPHRD_ARINC429).
  { unfold dev_add_socket_list in Hadd. rewrite Hpriv in Hadd.
    injection Hadd as <- <-. simpl. auto. }
  destruct Hnet1 as [Hnet1 Htype1].
  exists dev1, s1. unfold arinc429_netdev_notifier.
  rewrite !decide_False by (intros Hne; first [exact (Hne Hnet) | exact (Hne Htype)]).
  rewrite decide_True by reflexivity. rewrite Hadd.
  split; [reflexivity|]. split; [exact Hp1|]. split; [exact Hl1|].
  rewrite decide_False by (intros Hne; exact (Hne Hnet1)).
  rewrite decide_False by (intros Hne; exact (Hne Htype1)).
  rewrite decide_False by discriminate.
  rewrite decide_True by reflexivity.
  rewrite Hrem. reflexivity.
Qed.

(** *** Ingress *)

(** X9: the ingress handler reports [NET_RX_SUCCESS] exactly for the
    packets of an ARINC-429 device of [init_net] whose length is a multiple
    of the word size, and [NET_RX_DROP] for all others. *)
Theorem ingress_success_iff_valid skb dev s :
  ((arinc429_packet_ingress skb dev s).1 = NET_RX_SUCCESS
   ↔ dev_net dev = init_net ∧ dev_type dev = ARPHRD_ARINC429
     ∧ skb_len skb mod ARINC429_WORD_SIZE = 0)
  ∧ ((arinc429_packet_ingress skb dev s).1 = NET_RX_SUCCESS
     ∨ (arinc429_packet_ingress skb dev s).1 = NET_RX_DROP).
Proof.
  unfold arinc429_packet_ingress.
  destruct (decide (dev_net dev ≠ init_net)) as [Hnet|Hnet]; simpl.
  - split; [|by right]. split; [discriminate | intros [? _]; done].
  - apply dec_stable in Hnet.
    destruct (decide (dev_type dev ≠ ARPHRD_ARINC429)) as [Ht|Ht].
    + rewrite (bool_decide_eq_true_2 _ Ht). simpl.
      split; [|by right]. split; [discriminate | intros (_ & ? & _); done].
    + apply dec_stable in Ht.
      rewrite (bool_decide_eq_false_2 (dev_type dev ≠ ARPHRD_ARINC429))
        by (intros Hne; exact (Hne Ht)).
      destruct (decide (skb_len skb mod ARINC429_WORD_SIZE ≠ 0)) as [Hl|Hl].
      * rewrite (bool_decide_eq_true_2 _ Hl). simpl.
        split; [|by right]. split; [discriminate | intros (_ & _ & ?); done].
      * rewrite (bool_decide_eq_false_2 _ Hl). simpl.
        apply dec_stable in Hl. split; [|by left]. split; auto.
Qed.

(** X10: whatever the packet and the device, the ingress handler disposes
    of the buffer exactly once, with [kfree_skb] or [consume_skb], and does
    nothing else to the state. *)
Theorem ingress_disposes_of_buffer_once skb dev s :
  ∃ e,
    (arinc429_packet_ingress skb dev s).2 = emit e s
    ∧ (e = EvKfreeSkb skb ∨ e = EvConsumeSkb skb).
Proof.
  unfold arinc429_packet_ingress.
  repeat case_decide; simpl; eexists; split; eauto.
Qed.

(** *** Socket creator *)

(** X11: in [init_net], [arinc429_sock_create] returns 0 exactly when the
    protocol is the raw protocol and [sk_alloc] returns a socket; an unknown
    protocol is refused with [-EPROTONOSUPPORT] before [sk_alloc] is called,
    and no failure changes the sockets or [sock->sk]. *)
Theorem sock_create_in_init_net sock protocol kern alloc s :
  let r := arinc429_sock_create init_net sock protocol kern alloc s in
  (r.1.1 = 0 ↔ protocol = ARINC429_PROTO_RAW ∧ is_Some alloc)
  ∧ (protocol ≠ ARINC429_PROTO_RAW → r.1.1 = - EPROTONOSUPPORT ∧ r.2 = s)
  ∧ (r.1.1 ≠ 0 → socks r.2 = socks s ∧ sock_sk r.1.2 = sock_sk sock).
Proof.
  unfold arinc429_sock_create. cbn zeta.
  rewrite decide_False by (intros Hne; by apply Hne).
  destruct (decide (protocol = ARINC429_PROTO_RAW)) as [Hp|Hp].
  - destruct alloc as [sk|]; simpl.
    + split; [split; [intros _; split; [exact Hp | eauto] | reflexivity]|].
      split; [intros Hne; by destruct (Hne Hp) | intros Hne; by destruct Hne].
    + split; [split; [discriminate | intros [_ [? ?]]; discriminate]|].
      split; [intros Hne; by destruct (Hne Hp) | auto].
  - simpl. split; [split; [discriminate | intros [? _]; done]|].
    split; auto.
Qed.

(** X12: a socket that [arinc429_sock_create] has just created is unbound:
    [proto_raw_getname] reports interface index 0 for it. *)
Theorem created_socket_is_unbound sock kern sk s :
  ∃ sock' s',
    arinc429_sock_create init_net sock ARINC429_PROTO_RAW kern (Some sk) s
    = (0, sock', s')
    ∧ sock_sk sock' = Some sk
    ∧ sock_ops sock' = Some proto_raw_ops
    ∧ proto_raw_getname sk 0 s'
      = Ret (0, Some ({| arinc429_family := AF_ARINC429; arinc429_ifindex := 0 |},
                      to_int sizeof_sockaddr_arinc429)) s'.
Proof.
  unfold arinc429_sock_create. cbn zeta.
  rewrite decide_False by (intros Hne; by apply Hne).
  rewrite decide_True by reflexivity.
  eexists _, _. split; [reflexivity|]. split; [reflexivity|].
  split; [reflexivity|].
  unfold proto_raw_getname. rewrite decide_False by (intros Hne; by apply Hne).
  simpl. rewrite lookup_insert_eq. reflexivity.
Qed.

(** *** Module init and exit *)

(** X13: [arinc429_init] is all or nothing: it returns 0 with the cache,
    the protocol, the family, the notifier and the packet type registered,
    or it returns a nonzero value with nothing left registered. *)
Theorem init_all_or_nothing ans :
  arinc429_init ans unloaded = (0, loaded)
  ∨ ∃ rc, rc ≠ 0 ∧ arinc429_init ans unloaded = (rc, unloaded).
Proof.
  unfold arinc429_init.
  destruct (cache_ok ans); simpl.
  - destruct (decide (proto_rc ans ≠ 0)) as [H1|H1]; [right; eauto|].
    destruct (decide (sock_rc ans ≠ 0)) as [H2|H2]; [right; eauto|].
    destruct (decide (notifier_rc ans ≠ 0)) as [H3|H3]; [right; eauto|].
    left. reflexivity.
  - right. exists (- ENOMEM). split; [discriminate | reflexivity].
Qed.

(** X14: [arinc429_exit] after a successful [arinc429_init] leaves nothing
    registered. *)
Theorem exit_undoes_init ans m :
  arinc429_init ans unloaded = (0, m) →
  arinc429_exit m = unloaded.
Proof.
  unfold arinc429_init.
  destruct (cache_ok ans); simpl; [|discriminate].
  repeat case_decide; intros Heq; inversion Heq; subst;
    try reflexivity; congruence.
Qed.

(** *** Raw protocol: bind and getname *)

(** X15: [proto_raw_bind] returns 0, [-EINVAL] or [-ENODEV] and nothing
    else; whenever it returns, the socket lists and the interface table are
    as they were. *)
Theorem bind_return_values sk addr len alloc s v s' :
  proto_raw_bind sk addr len alloc s = Ret v s' →
  (v = 0 ∨ v = - EINVAL ∨ v = - ENODEV)
  ∧ sk_lists s' = sk_lists s
  ∧ netdevs s' = netdevs s.
Proof.
  unfold proto_raw_bind.
  destruct (decide (to_size_t len ≠ sizeof_sockaddr_arinc429));
    [intros [= <- <-]; auto|].
  destruct (decide (arinc429_ifindex addr = 0)); [intros [= <- <-]; auto|].
  destruct (socks s !! sk) as [psk|]; [|discriminate].
  destruct (decide (bound psk ≠ 0 ∧ arinc429_ifindex addr = psk_ifindex psk));
    [intros [= <- <-]; auto|].
  cbn zeta.
  destruct (netdevs (emit (EvDevGet (arinc429_ifindex addr)) s)
              !! arinc429_ifindex addr) as [dev|]; [|intros [= <- <-]; auto].
  destruct (decide (dev_type dev ≠ ARPHRD_ARINC429)); [intros [= <- <-]; auto|].
  destruct (dev_register_socket dev fn_raw_ingress sk alloc
              (emit (EvDevGet (arinc429_ifindex addr)) s)) as [err s2| |]
    eqn:Hreg; [|discriminate|discriminate].
  assert (Hlists := dev_register_socket_lists _ _ _ _ _ _ _ Hreg).
  destruct (dev_register_socket_frame _ _ _ _ _ _ _ Hreg) as (_ & Hdevs & _).
  destruct (decide (err ≠ 0)); intros [= <- <-]; simpl.
  - auto.
  - split; [auto|]. unfold report_if_down.
    case_decide; [destruct (sock_dead _)|]; simpl; auto.
Qed.

(** X16: a failure of the allocation in [dev_register_socket] is reported
    by [proto_raw_bind] as [-ENODEV]; the socket is left as it was and the
    device reference is put. *)
Theorem bind_allocation_failure sk addr len s psk dev :
  to_size_t len = sizeof_sockaddr_arinc429 →
  arinc429_ifindex addr ≠ 0 →
  socks s !! sk = Some psk →
  ¬ (bound psk ≠ 0 ∧ arinc429_ifindex addr = psk_ifindex psk) →
  netdevs s !! arinc429_ifindex addr = Some dev →
  dev_type dev = ARPHRD_ARINC429 →
  is_Some (ml_priv dev) →
  proto_raw_bind sk addr len None s
  = Ret (- ENODEV)
        (emit (EvDevPut (dev_ifindex dev))
           (emit (EvDevGet (arinc429_ifindex addr)) s)).
Proof.
  intros Hlen Hidx Hsk Hnot Hdev Htype [lp Hpriv].
  unfold proto_raw_bind.
  rewrite decide_False by (intros Hne; exact (Hne Hlen)).
  rewrite decide_False by exact Hidx.
  rewrite Hsk. rewrite decide_False by exact Hnot.
  simpl. rewrite Hdev.
  rewrite decide_False by (intros Hne; exact (Hne Htype)).
  unfold dev_register_socket.
  rewrite decide_False by (intros Hne; exact (Hne Htype)).
  rewrite Hpriv. rewrite decide_True by discriminate. reflexivity.
Qed.

(** X17: a [proto_raw_bind] that returns an error leaves every socket as it
    was. *)
Theorem failed_bind_keeps_sockets sk addr len alloc s v s' :
  proto_raw_bind sk addr len alloc s = Ret v s' →
  v ≠ 0 →
  socks s' = socks s.
Proof.
  unfold proto_raw_bind.
  destruct (decide (to_size_t len ≠ sizeof_sockaddr_arinc429));
    [intros [= <- <-]; auto|].
  destruct (decide (arinc429_ifindex addr = 0)); [intros [= <- <-]; auto|].
  destruct (socks s !! sk) as [psk|]; [|discriminate].
  destruct (decide (bound psk ≠ 0 ∧ arinc429_ifindex addr = psk_ifindex psk));
    [intros [= <- <-]; auto|].
  cbn zeta.
  destruct (netdevs (emit (EvDevGet (arinc429_ifindex addr)) s)
              !! arinc429_ifindex addr) as [dev|]; [|intros [= <- <-]; auto].
  destruct (decide (dev_type dev ≠ ARPHRD_ARINC429)); [intros [= <- <-]; auto|].
  destruct (dev_register_socket dev fn_raw_ingress sk alloc
              (emit (EvDevGet (arinc429_ifindex addr)) s)) as [err s2| |]
    eqn:Hreg; [|discriminate|discriminate].
  destruct (dev_register_socket_frame _ _ _ _ _ _ _ Hreg) as (Hsocks & _ & _).
  destruct (decide (err ≠ 0)); intros [= <- <-]; simpl.
  - intros _. exact Hsocks.
  - intros Hne. by destruct Hne.
Qed.

(** X18: when the interface table files every device under its own index,
    a [proto_raw_bind] that returns 0 is followed by a [proto_raw_getname]
    that reports the interface index of the bind address. *)
Theorem bind_then_getname sk addr len alloc s s' :
  netdevs_consistent s →
  proto_raw_bind sk addr len alloc s = Ret 0 s' →
  proto_raw_getname sk 0 s'
  = Ret (0, Some ({| arinc429_family := AF_ARINC429;
                     arinc429_ifindex := arinc429_ifindex addr |},
                  to_int sizeof_sockaddr_arinc429)) s'.
Proof.
  intros Hcons. unfold proto_raw_bind, proto_raw_getname.
  rewrite (decide_False (P := 0 ≠ 0)) by (intros Hne; by apply Hne).
  destruct (decide (to_size_t len ≠ sizeof_sockaddr_arinc429));
    [discriminate|].
  destruct (decide (arinc429_ifindex addr = 0)); [discriminate|].
  destruct (socks s !! sk) as [psk|] eqn:Hsk; [|discriminate].
  destruct (decide (bound psk ≠ 0 ∧ arinc429_ifindex addr = psk_ifindex psk))
    as [[_ Hsame]|_].
  { intros [= <-]. rewrite Hsk, Hsame. reflexivity. }
  cbn zeta.
  destruct (netdevs (emit (EvDevGet (arinc429_ifindex addr)) s)
              !! arinc429_ifindex addr) as [dev|] eqn:Hdev; [|discriminate].
  simpl in Hdev. apply Hcons in Hdev.
  destruct (decide (dev_type dev ≠ ARPHRD_ARINC429)); [discriminate|].
  destruct (dev_register_socket dev fn_raw_ingress sk alloc
              (emit (EvDevGet (arinc429_ifindex addr)) s)) as [err s2| |];
    [|discriminate|discriminate].
  destruct (decide (err ≠ 0)); [discriminate|].
  intros [= <-]. unfold report_if_down.
  case_decide; [destruct (sock_dead _)|]; simpl;
    rewrite ?lookup_insert_eq; simpl; by rewrite Hdev.
Qed.

(** *** Raw protocol: sendmsg *)

(** Once the size test is passed and the target interface is chosen,
    [proto_raw_sendmsg] is the rest of the function on that interface. *)
Lemma sendmsg_on_target sk msg size ans s ifindex :
  size mod ARINC429_WORD_SIZE = 0 →
  send_target msg sk s ifindex →
  proto_raw_sendmsg sk msg size ans s = sendmsg_on_ifindex sk size ans ifindex s.
Proof.
  intros Hsize Htarget. unfold proto_raw_sendmsg.
  rewrite decide_False by (intros Hne; exact (Hne Hsize)).
  unfold send_target in Htarget.
  destruct (msg_name msg) as [addr|].
  - destruct Htarget as (Hlen & Hfam & ->).
    rewrite decide_False by lia.
    rewrite decide_False by (intros Hne; exact (Hne Hfam)).
    reflexivity.
  - destruct Htarget as (psk & -> & ->). reflexivity.
Qed.

(** Whenever [proto_raw_sendmsg] gets as far as the device lookup, the
    size is word-aligned and the lookup is that of some interface index. *)
Lemma sendmsg_cases sk msg size ans s :
  proto_raw_sendmsg sk msg size ans s = Ret (- EINVAL) s
  ∨ proto_raw_sendmsg sk msg size ans s = Undef s
  ∨ (size mod ARINC429_WORD_SIZE = 0
     ∧ ∃ ifindex,
         proto_raw_sendmsg sk msg size ans s
         = sendmsg_on_ifindex sk size ans ifindex s).
Proof.
  unfold proto_raw_sendmsg.
  destruct (decide (size mod ARINC429_WORD_SIZE ≠ 0)) as [|Hsize]; [by left|].
  apply dec_stable in Hsize.
  destruct (msg_name msg) as [addr|].
  - repeat case_decide; [by left | by left |]. right. right. eauto.
  - destruct (socks s !! sk); [right; right; eauto | right; by left].
Qed.

(** The calls [sendmsg_on_ifindex] adds to the log, for each way it
    returns. *)
Lemma sendmsg_on_ifindex_log sk size ans ifindex s v s' :
  sendmsg_on_ifindex sk size ans ifindex s = Ret v s' →
  (netdevs s !! ifindex = None ∧ klog s' = klog s ++ [EvDevGet ifindex])
  ∨ ∃ dev,
      netdevs s !! ifindex = Some dev
      ∧ let skb := {| skb_len := size; skb_priv_ifindex := dev_ifindex dev;
                      skb_dev := dev_ifindex dev; skb_sk := Some sk |} in
        let put := EvDevPut (dev_ifindex dev) in
        let alloc := EvAllocSkb sk (size + sizeof_arinc429_skb_priv) in
        klog s' = klog s ++ [EvDevGet ifindex; put]
        ∨ klog s' = klog s ++ [EvDevGet ifindex; alloc; put]
        ∨ klog s' = klog s ++ [EvDevGet ifindex; alloc;
                                EvKfreeSkb {| skb_len := size;
                                              skb_priv_ifindex := dev_ifindex dev;
                                              skb_dev := 0; skb_sk := Some sk |};
                                put]
        ∨ (klog s' = klog s ++ [EvDevGet ifindex; alloc; EvXmit skb; put]
           ∧ dev_type dev = ARPHRD_ARINC429
           ∧ size <= mtu dev
           ∧ Z.land (dev_flags dev) IFF_UP ≠ 0
           ∧ alloc_err ans = None
           ∧ 0 <= memcpy_ret ans).
Proof.
  unfold sendmsg_on_ifindex. cbn zeta.
  change (netdevs (emit (EvDevGet ifindex) s)) with (netdevs s).
  destruct (netdevs s !! ifindex) as [dev|]; [|intros [= <- <-]; by left].
  intros Hrun. right. exists dev. split; [reflexivity|]. cbn zeta.
  destruct (decide (dev_type dev ≠ ARPHRD_ARINC429)) as [|Ht].
  { injection Hrun as <- <-. left. simpl. by rewrite <- app_assoc. }
  destruct (decide (size > mtu dev)) as [|Hm].
  { injection Hrun as <- <-. left. simpl. by rewrite <- app_assoc. }
  destruct (decide (Z.land (dev_flags dev) IFF_UP = 0)) as [|Hu].
  { injection Hrun as <- <-. left. simpl. by rewrite <- app_assoc. }
  destruct (alloc_err ans) as [err|] eqn:Ha.
  { injection Hrun as <- <-. right. left. simpl. by rewrite <- !app_assoc. }
  destruct (decide (memcpy_ret ans < 0)) as [|Hc].
  { injection Hrun as <- <-. right. right. left. simpl.
    by rewrite <- !app_assoc. }
  right. right. right.
  assert (Hlog : klog s' = klog s ++ [EvDevGet ifindex;
            EvAllocSkb sk (size + sizeof_arinc429_skb_priv);
            EvXmit {| skb_len := size; skb_priv_ifindex := dev_ifindex dev;
                      skb_dev := dev_ifindex dev; skb_sk := Some sk |};
            EvDevPut (dev_ifindex dev)]).
  { case_decide; injection Hrun as <- <-; simpl; by rewrite <- !app_assoc. }
  split; [exact Hlog|]. apply dec_stable in Ht.
  repeat split; [exact Ht | lia | exact Hu | lia].
Qed.

(** X19: [proto_raw_sendmsg] calls [dev_queue_xmit] only for a
    word-aligned payload that fits the MTU of an ARINC-429 device that is
    up, after the buffer was allocated and filled; it then calls it once,
    for a buffer that carries the payload length, the socket and the
    device's index. *)
Theorem sendmsg_transmits_only_checked sk msg size ans s v s' :
  proto_raw_sendmsg sk msg size ans s = Ret v s' →
  ∃ l,
    klog s' = klog s ++ l
    ∧ ∀ skb, EvXmit skb ∈ l →
        size mod ARINC429_WORD_SIZE = 0
        ∧ skb_len skb = size
        ∧ skb_sk skb = Some sk
        ∧ alloc_err ans = None
        ∧ 0 <= memcpy_ret ans
        ∧ ∃ i dev,
            netdevs s !! i = Some dev
            ∧ dev_type dev = ARPHRD_ARINC429
            ∧ size <= mtu dev
            ∧ Z.land (dev_flags dev) IFF_UP ≠ 0
            ∧ skb_dev skb = dev_ifindex dev
            ∧ skb_priv_ifindex skb = dev_ifindex dev
            ∧ l = [EvDevGet i; EvAllocSkb sk (size + sizeof_arinc429_skb_priv);
                   EvXmit skb; EvDevPut (dev_ifindex dev)].
Proof.
  intros Hrun.
  destruct (sendmsg_cases sk msg size ans s) as [H | [H | (Hsize & i & H)]];
    rewrite H in Hrun.
  - injection Hrun as <- <-. exists []. split; [by rewrite app_nil_r|].
    intros skb Hin. by apply elem_of_nil in Hin.
  - discriminate.
  - destruct (sendmsg_on_ifindex_log _ _ _ _ _ _ _ Hrun)
      as [[_ Hlog] | (dev & Hdev & Hlog)].
    { eexists. split; [exact Hlog|]. intros skb Hin.
      rewrite !elem_of_cons, elem_of_nil in Hin. intuition discriminate. }
    cbn zeta in Hlog.
    destruct Hlog as [Hlog | [Hlog | [Hlog | (Hlog & Ht & Hm & Hu & Ha & Hc)]]];
      (eexists; split; [exact Hlog|]); intros skb Hin;
      rewrite !elem_of_cons, elem_of_nil in Hin;
      try (intuition discriminate).
    assert (Hskb : skb = {| skb_len := size; skb_priv_ifindex := dev_ifindex dev;
                            skb_dev := dev_ifindex dev; skb_sk := Some sk |}).
    { destruct Hin as [?|[?|[Heq|[?|?]]]]; try discriminate; [|done].
      by injection Heq. }
    subst skb. simpl. repeat (split; [done|]).
    exists i, dev. repeat (split; [done|]). reflexivity.
Qed.

(** X20: [proto_raw_sendmsg] puts the device it has looked up on every
    path on which it returns: the calls it makes are none, or a lookup that
    finds no device, or a lookup followed by exactly one [dev_put] of the
    device found, as the last call. *)
Theorem sendmsg_puts_device sk msg size ans s v s' :
  proto_raw_sendmsg sk msg size ans s = Ret v s' →
  ∃ l,
    klog s' = klog s ++ l
    ∧ (l = []
       ∨ (∃ i, netdevs s !! i = None ∧ l = [EvDevGet i])
       ∨ (∃ i dev mid,
            netdevs s !! i = Some dev
            ∧ l = [EvDevGet i] ++ mid ++ [EvDevPut (dev_ifindex dev)]
            ∧ ∀ j, (EvDevGet j ∉ mid) ∧ (EvDevPut j ∉ mid))).
Proof.
  intros Hrun.
  destruct (sendmsg_cases sk msg size ans s) as [H | [H | (Hsize & i & H)]];
    rewrite H in Hrun.
  - injection Hrun as <- <-. exists []. split; [by rewrite app_nil_r | by left].
  - discriminate.
  - destruct (sendmsg_on_ifindex_log _ _ _ _ _ _ _ Hrun)
      as [[Hnone Hlog] | (dev & Hdev & Hlog)].
    { eexists. split; [exact Hlog|]. right. left. eauto. }
    cbn zeta in Hlog.
    destruct Hlog as [Hlog | [Hlog | [Hlog | (Hlog & _)]]];
      (eexists; split; [exact Hlog|]); right; right; exists i, dev.
    + exists []. split; [done|]. split; [reflexivity|].
      intros j. split; apply not_elem_of_nil.
    + eexists [_]. split; [done|]. split; [reflexivity|].
      intros j. rewrite !elem_of_cons, !elem_of_nil. intuition discriminate.
    + eexists [_; _]. split; [done|]. split; [reflexivity|].
      intros j. rewrite !elem_of_cons, !elem_of_nil. intuition discriminate.
    + eexists [_; _]. split; [done|]. split; [reflexivity|].
      intros j. rewrite !elem_of_cons, !elem_of_nil. intuition discriminate.
Qed.

(** X21: the errors of the target device are reported before any buffer is
    allocated: no device under the index gives [-ENXIO], a device of another
    link type [-ENODEV], and an ARINC-429 device that is down, for a payload
    that fits its MTU, [-ENETDOWN]. *)
Theorem sendmsg_device_errors sk msg size ans s ifindex :
  size mod ARINC429_WORD_SIZE = 0 →
  send_target msg sk s ifindex →
  (netdevs s !! ifindex = None →
     proto_raw_sendmsg sk msg size ans s
     = Ret (- ENXIO) (emit (EvDevGet ifindex) s))
  ∧ ∀ dev, netdevs s !! ifindex = Some dev →
      let s1 := emit (EvDevPut (dev_ifindex dev)) (emit (EvDevGet ifindex) s) in
      (dev_type dev ≠ ARPHRD_ARINC429 →
         proto_raw_sendmsg sk msg size ans s = Ret (- ENODEV) s1)
      ∧ (dev_type dev = ARPHRD_ARINC429 → size <= mtu dev →
         Z.land (dev_flags dev) IFF_UP = 0 →
         proto_raw_sendmsg sk msg size ans s = Ret (- ENETDOWN) s1).
Proof.
  intros Hsize Htarget.
  rewrite (sendmsg_on_target _ _ _ _ _ _ Hsize Htarget).
  unfold sendmsg_on_ifindex. cbn zeta.
  change (netdevs (emit (EvDevGet ifindex) s)) with (netdevs s).
  split.
  - intros ->. reflexivity.
  - intros dev ->. split.
    + intros Ht. by rewrite decide_True.
    + intros Ht Hm Hd.
      rewrite decide_False by (intros Hne; exact (Hne Ht)).
      rewrite decide_False by lia.
      by rewrite decide_True.
Qed.

(** X22: when [dev_queue_xmit] does not accept the buffer, the send fails
    after the transmit call: a negative status is returned as it is, a
    positive one other than [NET_XMIT_CN] as [-ENOBUFS]. *)
Theorem sendmsg_transmit_refused sk msg size ans s ifindex dev :
  size mod ARINC429_WORD_SIZE = 0 →
  send_target msg sk s ifindex →
  netdevs s !! ifindex = Some dev →
  dev_type dev = ARPHRD_ARINC429 →
  Z.land (dev_flags dev) IFF_UP ≠ 0 →
  size <= mtu dev →
  alloc_err ans = None →
  0 <= memcpy_ret ans →
  ¬ xmit_accepted (xmit_ret ans) →
  ∃ s',
    proto_raw_sendmsg sk msg size ans s
    = Ret (if decide (xmit_ret ans > 0) then - ENOBUFS else xmit_ret ans) s'
    ∧ klog s'
      = klog s ++ [EvDevGet ifindex;
                   EvAllocSkb sk (size + sizeof_arinc429_skb_priv);
                   EvXmit {| skb_len := size; skb_priv_ifindex := dev_ifindex dev;
                             skb_dev := dev_ifindex dev; skb_sk := Some sk |};
                   EvDevPut (dev_ifindex dev)].
Proof.
  intros Hsize Htarget Hdev Htype Hup Hfit Halloc Hcopy Hrefused.
  rewrite (sendmsg_on_target _ _ _ _ _ _ Hsize Htarget).
  unfold sendmsg_on_ifindex. cbn zeta.
  change (netdevs (emit (EvDevGet ifindex) s)) with (netdevs s).
  rewrite Hdev.
  rewrite decide_False by (intros Hne; exact (Hne Htype)).
  rewrite decide_False by lia.
  rewrite decide_False by exact Hup.
  rewrite Halloc.
  rewrite decide_False by lia.
  assert (Hne2 : xmit_ret ans ≠ 0 ∧ xmit_ret ans ≠ NET_XMIT_CN).
  { unfold xmit_accepted in Hrefused. split; intros Heq; apply Hrefused; auto. }
  destruct Hne2 as [Hne0 Hnecn].
  destruct (decide (xmit_ret ans > 0)) as [Hpos|Hneg].
  - unfold net_xmit_errno.
    rewrite (decide_True (P := xmit_ret ans ≠ NET_XMIT_CN)) by exact Hnecn.
    rewrite decide_True by discriminate.
    eexists. split; [reflexivity|]. simpl. by rewrite <- !app_assoc.
  - rewrite decide_True by exact Hne0.
    eexists. split; [reflexivity|]. simpl. by rewrite <- !app_assoc.
Qed.

(** *** Raw protocol: recvmsg *)

Lemma lor_land_same x m : Z.land (Z.lor x m) m = m.
Proof.
  apply Z.bits_inj'. intros n _. rewrite Z.land_spec, Z.lor_spec.
  destruct (Z.testbit x n), (Z.testbit m n); reflexivity.
Qed.

(** X23: when a datagram is dequeued and copied, [proto_raw_recvmsg]
    returns and copies the smaller of the buffer size and the datagram
    length; it sets [MSG_TRUNC] when the datagram is longer than the buffer
    and leaves the flags alone otherwise. *)
Theorem recvmsg_copies_min msg size flags ans skb :
  recv_skb ans = Some skb →
  0 <= copy_ret ans →
  0 <= size <= INT_MAX →
  0 <= skb_len skb <= INT_MAX →
  let r := proto_raw_recvmsg msg size flags ans in
  r.1.1 = Z.min size (skb_len skb)
  ∧ r.2 = Some (Z.min size (skb_len skb))
  ∧ (size < skb_len skb →
       msg_flags r.1.2 = Z.lor (msg_flags msg) MSG_TRUNC
       ∧ Z.land (msg_flags r.1.2) MSG_TRUNC = MSG_TRUNC)
  ∧ (skb_len skb <= size → msg_flags r.1.2 = msg_flags msg).
Proof.
  intros Hskb Hcopy Hsize Hlen. unfold proto_raw_recvmsg. rewrite Hskb.
  cbn zeta. rewrite decide_False by lia.
  destruct (bool_decide (size < skb_len skb)) eqn:Ht.
  - apply bool_decide_eq_true in Ht. simpl.
    rewrite to_int_small by exact Hsize.
    rewrite Z.min_l by lia.
    split; [reflexivity|]. split; [reflexivity|].
    split; [|lia]. intros _.
    assert (Hfl : msg_flags
                    match msg_name msg with
                    | Some _ => {| msg_name := Some (recv_cb ans);
                                   msg_namelen := to_int sizeof_sockaddr_arinc429;
                                   msg_flags := Z.lor (msg_flags msg) MSG_TRUNC |}
                    | None => {| msg_name := msg_name msg;
                                 msg_namelen := msg_namelen msg;
                                 msg_flags := Z.lor (msg_flags msg) MSG_TRUNC |}
                    end = Z.lor (msg_flags msg) MSG_TRUNC).
    { by destruct (msg_name msg). }
    rewrite Hfl. split; [reflexivity | apply lor_land_same].
  - apply bool_decide_eq_false in Ht. simpl.
    rewrite to_int_small by exact Hlen.
    rewrite Z.min_r by lia.
    split; [reflexivity|]. split; [reflexivity|].
    split; [lia|]. intros _. by destruct (msg_name msg).
Qed.

(** X24: whenever [proto_raw_bind] returns, the device it has looked up
    has been put: its calls are none, or a lookup that finds no device, or
    a lookup, at most one error report for the socket, and the [dev_put] of
    the device found. *)
Theorem bind_puts_device sk addr len alloc s v s' :
  proto_raw_bind sk addr len alloc s = Ret v s' →
  ∃ l,
    klog s' = klog s ++ l
    ∧ (l = []
       ∨ (netdevs s !! arinc429_ifindex addr = None
          ∧ l = [EvDevGet (arinc429_ifindex addr)])
       ∨ (∃ dev mid,
            netdevs s !! arinc429_ifindex addr = Some dev
            ∧ l = [EvDevGet (arinc429_ifindex addr)] ++ mid
                  ++ [EvDevPut (dev_ifindex dev)]
            ∧ (mid = [] ∨ mid = [EvErrorReport sk]))).
Proof.
  unfold proto_raw_bind.
  assert (Hnil : ∀ v0, Ret v0 s = Ret v s' →
            ∃ l, klog s' = klog s ++ l ∧ (l = [] ∨
              (netdevs s !! arinc429_ifindex addr = None
               ∧ l = [EvDevGet (arinc429_ifindex addr)]) ∨
              (∃ dev mid,
                 netdevs s !! arinc429_ifindex addr = Some dev
                 ∧ l = [EvDevGet (arinc429_ifindex addr)] ++ mid
                       ++ [EvDevPut (dev_ifindex dev)]
                 ∧ (mid = [] ∨ mid = [EvErrorReport sk])))).
  { intros v0 [= _ <-]. exists []. split; [by rewrite app_nil_r | by left]. }
  destruct (decide (to_size_t len ≠ sizeof_sockaddr_arinc429)); [apply Hnil|].
  destruct (decide (arinc429_ifindex addr = 0)); [apply Hnil|].
  destruct (socks s !! sk) as [psk|]; [|discriminate].
  destruct (decide (bound psk ≠ 0 ∧ arinc429_ifindex addr = psk_ifindex psk));
    [apply Hnil|].
  clear Hnil. cbn zeta.
  change (netdevs (emit (EvDevGet (arinc429_ifindex addr)) s)) with (netdevs s).
  destruct (netdevs s !! arinc429_ifindex addr) as [dev|] eqn:Hdev.
  2:{ intros [= _ <-]. eexists. split; [reflexivity|]. right. by left. }
  destruct (decide (dev_type dev ≠ ARPHRD_ARINC429)).
  { intros [= _ <-]. eexists. split; [simpl; by rewrite <- app_assoc|].
    right. right. exists dev, []. auto. }
  destruct (dev_register_socket dev fn_raw_ingress sk alloc
              (emit (EvDevGet (arinc429_ifindex addr)) s)) as [err s2| |]
    eqn:Hreg; [|discriminate|discriminate].
  destruct (dev_register_socket_frame _ _ _ _ _ _ _ Hreg) as (_ & _ & Hlog).
  simpl in Hlog.
  destruct (decide (err ≠ 0)); intros [= _ <-].
  - eexists. split; [simpl; rewrite Hlog; by rewrite <- app_assoc|].
    right. right. exists dev, []. auto.
  - unfold report_if_down. case_decide; [destruct (sock_dead _)|]; simpl.
    + eexists. split; [rewrite Hlog; by rewrite <- app_assoc|].
      right. right. exists dev, []. auto.
    + eexists. split; [rewrite Hlog; by rewrite <- !app_assoc|].
      right. right. exists dev, [EvErrorReport sk]. auto.
    + eexists. split; [rewrite Hlog; by rewrite <- app_assoc|].
      right. right. exists dev, []. auto.
Qed.

(** *** Raw protocol: release *)

(** Purging the receive queue frees each queued buffer and touches nothing
    but the log. *)
Lemma purge_log (q : list sk_buff) s :
  let s1 := foldl (fun acc skb => emit (EvKfreeSkb skb) acc) s q in
  klog s1 = klog s ++ (EvKfreeSkb <$> q)
  ∧ socks s1 = socks s ∧ sk_lists s1 = sk_lists s
  ∧ sk_infos s1 = sk_infos s ∧ netdevs s1 = netdevs s.
Proof.
  revert s. induction q as [|skb q IH]; intros s; simpl.
  - by rewrite app_nil_r.
  - destruct (IH (emit (EvKfreeSkb skb) s)) as (Hl & Hs & Hsl & Hsi & Hn).
    simpl in *. rewrite Hl, <- app_assoc. auto.
Qed.

(** [sock_put] leaves the socket lists, their entries and the interface
    table alone; the socket stays when the reference was not the last one
    and is gone when it was. *)
Lemma sock_put_frame sk last_ref s psk :
  socks s !! sk = Some psk →
  let s1 := sock_put sk last_ref s in
  sk_lists s1 = sk_lists s ∧ sk_infos s1 = sk_infos s
  ∧ netdevs s1 = netdevs s
  ∧ socks s1 !! sk = (if last_ref then None else Some psk)
  ∧ klog s1 = klog s ++ (if last_ref then EvKfreeSkb <$> sk_receive_queue psk
                         else []).
Proof.
  intros Hsk. unfold sock_put. destruct last_ref; cbn zeta.
  - unfold arinc429_sock_destruct. rewrite Hsk.
    destruct (purge_log (sk_receive_queue psk) s) as (Hl & Hs & Hsl & Hsi & Hn).
    simpl. rewrite lookup_delete_eq. auto.
  - rewrite app_nil_r. auto.
Qed.

(** Unregistration does not touch the sockets, the interface table or the
    log. *)
Lemma dev_unregister_socket_frame dev f sk s dev' s' :
  dev_unregister_socket dev f sk s = Ret dev' s' →
  socks s' = socks s ∧ netdevs s' = netdevs s ∧ klog s' = klog s.
Proof.
  unfold dev_unregister_socket.
  repeat (case_decide || case_match); try discriminate;
    intros [= _ <-]; simpl; auto.
Qed.

(** X25: a second [proto_raw_release] of the same socket returns 0 and
    changes nothing, because the first one has cleared [sock->sk]; every
    release that returns, returns 0. *)
Theorem release_twice sock last_ref last_ref' s v sock' s' :
  proto_raw_release sock last_ref s = Ret (v, sock') s' →
  v = 0
  ∧ sock_sk sock' = None
  ∧ proto_raw_release sock' last_ref' s' = Ret (0, sock') s'.
Proof.
  unfold proto_raw_release at 1.
  destruct (sock_sk sock) as [sk|] eqn:Hsk.
  - destruct (socks s !! sk) as [psk|]; [|discriminate]. cbn zeta.
    destruct (netdevs _ !! _) as [dev|].
    + destruct (dev_unregister_socket _ _ _ _) as [dev' s2| |];
        [|discriminate|discriminate].
      intros [= <- <- <-]. unfold proto_raw_release. simpl. auto.
    + intros [= <- <- <-]. unfold proto_raw_release. simpl. auto.
  - intros [= <- <- <-]. unfold proto_raw_release. rewrite Hsk. auto.
Qed.

(** X26: releasing a socket whose device is in the table, with the
    socket's entry in a well-formed list that is not marked for removal,
    unlinks and frees that entry and lowers the counter by one; the socket
    is gone when its last reference was dropped and otherwise left dead and
    unbound with index 0; the device that was looked up is not put. *)
Theorem release_unregisters_socket sock last_ref s sk psk dev lp sk_list q :
  sock_sk sock = Some sk →
  socks s !! sk = Some psk →
  netdevs s !! psk_ifindex psk = Some dev →
  dev_type dev = ARPHRD_ARINC429 →
  ml_priv dev = Some lp →
  sk_lists s !! lp = Some sk_list →
  list_wf (sk_infos s) sk_list →
  entries sk_list <= INT_MAX →
  remove_on_zero_entries sk_list = 0 →
  entry_for (sk_infos s) (sl_head sk_list) fn_raw_ingress sk q →
  ∃ p sock' s' sk_list',
    entry_for (sk_infos s) (sl_head sk_list) fn_raw_ingress sk p
    ∧ proto_raw_release sock last_ref s = Ret (0, sock') s'
    ∧ sock_sk sock' = None
    ∧ sk_lists s' !! lp = Some sk_list'
    ∧ sl_head sk_list' = hlist_del_rcu p (sl_head sk_list)
    ∧ entries sk_list' = entries sk_list - 1
    ∧ sk_infos s' = delete p (sk_infos s)
    ∧ netdevs s' !! psk_ifindex psk = Some dev
    ∧ socks s' !! sk
      = (if last_ref then None
         else Some {| sk_err := sk_err psk; sock_dead := true;
                      sk_receive_queue := sk_receive_queue psk;
                      psk_ifindex := 0; bound := 0 |})
    ∧ klog s'
      = klog s ++ [EvDevGet (psk_ifindex psk)]
          ++ (if last_ref then EvKfreeSkb <$> sk_receive_queue psk else []).
Proof.
  intros Hsock Hsk Hdev Htype Hpriv Hlist Hwf Hmax Hflag Hentry.
  destruct (unregister_found_entry dev fn_raw_ingress sk
              (emit (EvDevGet (psk_ifindex psk)) s) lp sk_list q
              Htype Hpriv Hlist Hwf Hmax Hflag Hentry)
    as (p & s2 & sk_list' & Hp & Hrun & Hl' & Hhead & _ & Hent & Hinfos & _).
  destruct (dev_unregister_socket_frame _ _ _ _ _ _ Hrun)
    as (Hsocks2 & Hdevs2 & Hlog2).
  simpl in Hsocks2, Hdevs2, Hlog2.
  exists p. eexists _, _, sk_list'. split; [exact Hp|].
  unfold proto_raw_release. rewrite Hsock, Hsk. cbn zeta.
  change (netdevs (emit (EvDevGet (psk_ifindex psk)) s)) with (netdevs s).
  rewrite Hdev, Hrun.
  split; [reflexivity|]. split; [reflexivity|].
  match goal with
  | |- context [sock_put sk last_ref ?st] =>
      destruct (sock_put_frame sk last_ref st
                  (sock_orphan (set_bound 0 0 psk)))
        as (Hsl & Hsi & Hn & Hs & Hl);
        [simpl; apply lookup_insert_eq|]
  end.
  cbn zeta in *. rewrite Hsl, Hsi, Hn, Hs, Hl. simpl.
  split; [exact Hl'|]. split; [exact Hhead|]. split; [exact Hent|].
  split; [exact Hinfos|]. split; [apply lookup_insert_eq|].
  split; [reflexivity|]. rewrite Hlog2. by rewrite <- app_assoc.
Qed.

(** X27: when the socket's interface index names no device, or a device
    whose socket list is detached, [proto_raw_release] unregisters
    nothing: the socket lists and their entries are as before, an entry of
    the socket included, while the socket itself is released. *)
Theorem release_without_list sock last_ref s sk psk :
  sock_sk sock = Some sk →
  socks s !! sk = Some psk →
  netdevs s !! psk_ifindex psk = None
  ∨ (∃ dev, netdevs s !! psk_ifindex psk = Some dev ∧ ml_priv dev = None) →
  ∃ sock' s',
    proto_raw_release sock last_ref s = Ret (0, sock') s'
    ∧ sock_sk sock' = None
    ∧ sk_lists s' = sk_lists s
    ∧ sk_infos s' = sk_infos s
    ∧ netdevs s' = netdevs s
    ∧ socks s' !! sk
      = (if last_ref then None
         else Some {| sk_err := sk_err psk; sock_dead := true;
                      sk_receive_queue := sk_receive_queue psk;
                      psk_ifindex := 0; bound := 0 |}).
Proof.
  intros Hsock Hsk Hdev.
  unfold proto_raw_release. rewrite Hsock, Hsk. cbn zeta.
  change (netdevs (emit (EvDevGet (psk_ifindex psk)) s)) with (netdevs s).
  destruct Hdev as [Hnone | (dev & Hdev & Hpriv)].
  - rewrite Hnone. eexists _, _. split; [reflexivity|]. split; [reflexivity|].
    match goal with
    | |- context [sock_put sk last_ref ?st] =>
        destruct (sock_put_frame sk last_ref st
                    (sock_orphan (set_bound 0 0 psk)))
          as (Hsl & Hsi & Hn & Hs & _);
          [simpl; apply lookup_insert_eq|]
    end.
    cbn zeta in *. rewrite Hsl, Hsi, Hn, Hs. simpl. auto.
  - rewrite Hdev.
    assert (Hun : dev_unregister_socket dev fn_raw_ingress sk
                    (emit (EvDevGet (psk_ifindex psk)) s)
                  = Ret dev (emit (EvDevGet (psk_ifindex psk)) s)).
    { unfold dev_unregister_socket. rewrite Hpriv. by case_decide. }
    rewrite Hun. eexists _, _. split; [reflexivity|]. split; [reflexivity|].
    match goal with
    | |- context [sock_put sk last_ref ?st] =>
        destruct (sock_put_frame sk last_ref st
                    (sock_orphan (set_bound 0 0 psk)))
          as (Hsl & Hsi & Hn & Hs & _);
          [simpl; apply lookup_insert_eq|]
    end.
    cbn zeta in *. rewrite Hsl, Hsi, Hn, Hs. simpl.
    split; [reflexivity|]. split; [reflexivity|].
    split; [by apply insert_id | reflexivity].
Qed.

End MoreProperties.

(** ** The further properties on concrete inputs *)

Lemma sample_list_live_one :
  list_live (sk_infos state_one_socket) [20%positive].
Proof.
  intros p Hp. apply list_elem_of_singleton in Hp. subst p.
  eexists. reflexivity.
Qed.

Lemma sample_entry_one :
  entry_for (sk_infos state_one_socket) [20%positive] fn_raw_ingress
    100%positive 20%positive.
Proof. split; [apply list_elem_of_singleton; reflexivity | reflexivity]. Qed.

(** X1 on the registration of an already registered pair. *)
Lemma register_never_links_example :
  ∃ v s',
    @dev_register_socket sample_h (sample_dev 1 (Some 10%positive))
      fn_raw_ingress 100%positive (Some 21%positive) state_one_socket
    = Ret v s'
    ∧ sk_lists s' = sk_lists state_one_socket
    ∧ (v = 0 ∨ v = - ENODEV ∨ v = - ENOMEM).
Proof.
  eexists _, _. split; [vm_compute; reflexivity|].
  eapply (@register_never_links sample_h (sample_dev 1 (Some 10%positive))
            fn_raw_ingress 100%positive (Some 21%positive) state_one_socket).
  vm_compute. reflexivity.
Defined.

(** X2 on a device with one registered socket. *)
Lemma register_after_remove_example :
  ∃ dev' s',
    dev_remove_socket_list (sample_dev 1 (Some 10%positive)) state_one_socket
    = Ret dev' s'
    ∧ ∀ f sk alloc,
        @dev_register_socket sample_h dev' f sk alloc s' = Ret (- ENODEV) s'.
Proof.
  apply (@register_after_remove_refused sample_h
           (sample_dev 1 (Some 10%positive)) state_one_socket 10%positive
           {| sl_head := [20%positive]; remove_on_zero_entries := 0;
              entries := 1 |}); reflexivity.
Defined.

(** X3 on a device with two registered sockets: socket 100 is
    unregistered. *)
Lemma unregister_unlinks_example :
  ∃ p s' sk_list',
    entry_for (sk_infos state_two_sockets) [21; 20]%positive fn_raw_ingress
      100%positive p
    ∧ @dev_unregister_socket sample_h (sample_dev 1 (Some 10%positive))
        fn_raw_ingress 100%positive state_two_sockets
      = Ret (sample_dev 1 (Some 10%positive)) s'
    ∧ sk_lists s' !! 10%positive = Some sk_list'
    ∧ sl_head sk_list' = hlist_del_rcu p [21; 20]%positive
    ∧ (p ∉ sl_head sk_list')
    ∧ entries sk_list' = 2 - 1
    ∧ sk_infos s' = delete p (sk_infos state_two_sockets)
    ∧ list_wf (sk_infos s') sk_list'
    ∧ ∃ before after,
        [21; 20]%positive = before ++ p :: after
        ∧ (∀ r, r ∈ before →
             ¬ entry_for (sk_infos state_two_sockets) [21; 20]%positive
                 fn_raw_ingress 100%positive r)
        ∧ sl_head sk_list' = before ++ after.
Proof.
  apply (@unregister_unlinks_entry sample_h (sample_dev 1 (Some 10%positive))
           fn_raw_ingress 100%positive state_two_sockets 10%positive
           {| sl_head := [21; 20]%positive; remove_on_zero_entries := 0;
              entries := 2 |} 20%positive).
  - reflexivity.
  - reflexivity.
  - reflexivity.
  - split; [|split].
    + intros p Hp. simpl in Hp.
      apply elem_of_cons in Hp as [->|Hp];
        [|apply list_elem_of_singleton in Hp; subst p]; eexists; reflexivity.
    + simpl. apply NoDup_cons. split; [|apply NoDup_singleton].
      intros Hin. apply list_elem_of_singleton in Hin. discriminate.
    + reflexivity.
  - simpl. unfold INT_MAX. lia.
  - reflexivity.
  - split; [simpl; right; apply list_elem_of_singleton; reflexivity
           | reflexivity].
Defined.

(** X4 on the list of a device that is being removed. *)
Lemma unregister_drains_example :
  ∃ p dev' s',
    entry_for (sk_infos state_pending_removal) [20%positive] fn_raw_ingress
      100%positive p
    ∧ @dev_unregister_socket sample_h (sample_dev 1 (Some 10%positive))
        fn_raw_ingress 100%positive state_pending_removal
      = Ret dev' s'
    ∧ ml_priv dev' = None
    ∧ sk_lists s' !! 10%positive = None
    ∧ sk_infos s' = delete p (sk_infos state_pending_removal).
Proof.
  apply (@unregister_drains_marked_list sample_h
           (sample_dev 1 (Some 10%positive)) fn_raw_ingress 100%positive
           state_pending_removal 10%positive
           {| sl_head := [20%positive]; remove_on_zero_entries := 1;
              entries := 1 |} 20%positive).
  - reflexivity.
  - reflexivity.
  - reflexivity.
  - exact sample_list_live_one.
  - simpl. lia.
  - reflexivity.
  - exact sample_entry_one.
Defined.

(** X5: socket 101 is not registered on the device of socket 100. *)
Lemma unregister_unknown_example :
  @dev_unregister_socket sample_h (sample_dev 1 (Some 10%positive))
    fn_raw_ingress 101%positive state_one_socket
  = Ret (sample_dev 1 (Some 10%positive)) state_one_socket.
Proof.
  apply (@unregister_unknown_pair_unchanged sample_h
           (sample_dev 1 (Some 10%positive)) fn_raw_ingress 101%positive
           state_one_socket 10%positive
           {| sl_head := [20%positive]; remove_on_zero_entries := 0;
              entries := 1 |}).
  - reflexivity.
  - reflexivity.
  - exact sample_list_live_one.
  - intros p [Hp He]. simpl in Hp. apply list_elem_of_singleton in Hp.
    subst p. vm_compute in He. discriminate.
Defined.

(** X7 on the event [NETDEV_UP] (1) for an ARINC-429 device. *)
Lemma notifier_ignores_example :
  @arinc429_netdev_notifier sample_h 1 (sample_dev 1 (Some 10%positive))
    (Some 11%positive) state_one_socket
  = Ret (NOTIFY_DONE, sample_dev 1 (Some 10%positive)) state_one_socket.
Proof.
  apply (@notifier_ignores_unrelated sample_h).
  right. right. split; discriminate.
Defined.

(** X8 on a device that has just appeared. *)
Lemma notifier_round_trip_example :
  ∃ dev1 s1,
    @arinc429_netdev_notifier sample_h NETDEV_REGISTER (sample_dev 1 None)
      (Some 10%positive) state_new_device
    = Ret (NOTIFY_DONE, dev1) s1
    ∧ ml_priv dev1 = Some 10%positive
    ∧ sk_lists s1 !! 10%positive
      = Some {| sl_head := []; remove_on_zero_entries := 0; entries := 0 |}
    ∧ @arinc429_netdev_notifier sample_h NETDEV_UNREGISTER dev1 None s1
      = Ret (NOTIFY_DONE, sample_dev 1 None) state_new_device.
Proof.
  apply (@notifier_register_unregister sample_h (sample_dev 1 None)
           10%positive None state_new_device); reflexivity.
Defined.

(** X14 when every registration succeeds. *)
Lemma exit_undoes_init_example :
  arinc429_exit loaded = unloaded.
Proof.
  apply (exit_undoes_init
           {| cache_ok := true; proto_rc := 0; sock_rc := 0; notifier_rc := 0 |}).
  reflexivity.
Defined.

(** X15 on the bind of socket 100 to the down device 1. *)
Lemma bind_return_values_example :
  ∃ v s',
    @proto_raw_bind sample_h 100%positive (addr_of 1) 8 (Some 21%positive)
      state_down_device = Ret v s'
    ∧ (v = 0 ∨ v = - EINVAL ∨ v = - ENODEV)
    ∧ sk_lists s' = sk_lists state_down_device
    ∧ netdevs s' = netdevs state_down_device.
Proof.
  eexists _, _. split; [vm_compute; reflexivity|].
  eapply (@bind_return_values sample_h 100%positive (addr_of 1) 8
            (Some 21%positive) state_down_device).
  vm_compute. reflexivity.
Defined.

(** X16 on the first bind of socket 100, the allocation failing. *)
Lemma bind_allocation_failure_example :
  @proto_raw_bind sample_h 100%positive (addr_of 1) 8 None state_empty_list
  = Ret (- ENODEV)
        (emit (EvDevPut 1) (emit (EvDevGet 1) state_empty_list)).
Proof.
  apply (@bind_allocation_failure sample_h 100%positive (addr_of 1) 8
           state_empty_list fresh_sock (sample_dev 1 (Some 10%positive)));
    try reflexivity.
  - discriminate.
  - intros [Hb _]. by apply Hb.
  - eexists. reflexivity.
Defined.

(** X17 on the same failing bind. *)
Lemma failed_bind_keeps_sockets_example :
  ∃ v s',
    @proto_raw_bind sample_h 100%positive (addr_of 1) 8 None state_empty_list
    = Ret v s'
    ∧ v ≠ 0
    ∧ socks s' = socks state_empty_list.
Proof.
  exists (- ENODEV), (emit (EvDevPut 1) (emit (EvDevGet 1) state_empty_list)).
  split; [vm_compute; reflexivity|]. split; [discriminate|].
  apply (@failed_bind_keeps_sockets sample_h 100%positive (addr_of 1) 8 None
           state_empty_list (- ENODEV)).
  - vm_compute. reflexivity.
  - discriminate.
Defined.

(** X18 on the bind of socket 100 to the down device 1. *)
Lemma bind_then_getname_example :
  ∃ s',
    @proto_raw_bind sample_h 100%positive (addr_of 1) 8 (Some 21%positive)
      state_down_device = Ret 0 s'
    ∧ @proto_raw_getname sample_h 100%positive 0 s'
      = Ret (0, Some ({| arinc429_family := 45; arinc429_ifindex := 1 |}, 8)) s'.
Proof.
  eexists. split; [vm_compute; reflexivity|].
  apply (@bind_then_getname sample_h 100%positive (addr_of 1) 8
           (Some 21%positive) state_down_device).
  - intros i dev Hdev. unfold state_down_device in Hdev. simpl in Hdev.
    apply lookup_singleton_Some in Hdev as [<- <-]. reflexivity.
  - vm_compute. reflexivity.
Defined.

(** X19 and X20 on an 8-byte send of the bound socket 100. *)
Lemma sendmsg_transmits_example :
  ∃ v s' l,
    @proto_raw_sendmsg sample_h 100%positive msg_no_name 8 answers_ok
      state_one_socket = Ret v s'
    ∧ klog s' = klog state_one_socket ++ l
    ∧ ∀ skb, EvXmit skb ∈ l →
        8 mod ARINC429_WORD_SIZE = 0
        ∧ skb_len skb = 8
        ∧ skb_sk skb = Some 100%positive
        ∧ alloc_err answers_ok = None
        ∧ 0 <= memcpy_ret answers_ok
        ∧ ∃ i dev,
            netdevs state_one_socket !! i = Some dev
            ∧ @dev_type dev = 823
            ∧ 8 <= mtu dev
            ∧ Z.land (dev_flags dev) IFF_UP ≠ 0
            ∧ skb_dev skb = dev_ifindex dev
            ∧ skb_priv_ifindex skb = dev_ifindex dev
            ∧ l = [EvDevGet i; EvAllocSkb 100%positive (8 + sizeof_arinc429_skb_priv);
                   EvXmit skb; EvDevPut (dev_ifindex dev)].
Proof.
  destruct (@sendmsg_transmits_only_checked sample_h 100%positive msg_no_name
              8 answers_ok state_one_socket 8
              (emit (EvDevPut 1)
                 (emit (EvXmit {| skb_len := 8; skb_priv_ifindex := 1;
                                  skb_dev := 1; skb_sk := Some 100%positive |})
                    (emit (EvAllocSkb 100%positive 12)
                       (emit (EvDevGet 1) state_one_socket)))))
    as (l & Hl & Hx); [vm_compute; reflexivity|].
  eexists _, _, l. split; [vm_compute; reflexivity|]. split; [exact Hl|].
  exact Hx.
Defined.

Lemma sendmsg_puts_device_example :
  ∃ v s' l,
    @proto_raw_sendmsg sample_h 100%positive msg_no_name 8 answers_ok
      state_one_socket = Ret v s'
    ∧ klog s' = klog state_one_socket ++ l
    ∧ (l = []
       ∨ (∃ i, netdevs state_one_socket !! i = None ∧ l = [EvDevGet i])
       ∨ (∃ i dev mid,
            netdevs state_one_socket !! i = Some dev
            ∧ l = [EvDevGet i] ++ mid ++ [EvDevPut (dev_ifindex dev)]
            ∧ ∀ j, (EvDevGet j ∉ mid) ∧ (EvDevPut j ∉ mid))).
Proof.
  destruct (@sendmsg_puts_device sample_h 100%positive msg_no_name
              8 answers_ok state_one_socket 8
              (emit (EvDevPut 1)
                 (emit (EvXmit {| skb_len := 8; skb_priv_ifindex := 1;
                                  skb_dev := 1; skb_sk := Some 100%positive |})
                    (emit (EvAllocSkb 100%positive 12)
                       (emit (EvDevGet 1) state_one_socket)))))
    as (l & Hl & Hx); [vm_compute; reflexivity|].
  eexists _, _, l. split; [vm_compute; reflexivity|]. split; [exact Hl|].
  exact Hx.
Defined.

(** X21: a send of the unbound socket 100 (index 0) finds no device. *)
Lemma sendmsg_unbound_example :
  @proto_raw_sendmsg sample_h 100%positive msg_no_name 8 answers_ok
    state_empty_list
  = Ret (- ENXIO) (emit (EvDevGet 0) state_empty_list).
Proof.
  refine (proj1 (@sendmsg_device_errors sample_h 100%positive msg_no_name 8
                   answers_ok state_empty_list 0 _ _) _).
  - reflexivity.
  - eexists. split; reflexivity.
  - reflexivity.
Defined.

(** X22: the device's queue drops the buffer ([NET_XMIT_DROP], 1). *)
Lemma sendmsg_dropped_example :
  ∃ s',
    @proto_raw_sendmsg sample_h 100%positive msg_no_name 8
      {| alloc_err := None; memcpy_ret := 0; xmit_ret := 1 |} state_one_socket
    = Ret (- ENOBUFS) s'
    ∧ klog s'
      = [EvDevGet 1; EvAllocSkb 100%positive 12;
         EvXmit {| skb_len := 8; skb_priv_ifindex := 1; skb_dev := 1;
                   skb_sk := Some 100%positive |};
         EvDevPut 1].
Proof.
  apply (@sendmsg_transmit_refused sample_h 100%positive msg_no_name 8
           {| alloc_err := None; memcpy_ret := 0; xmit_ret := 1 |}
           state_one_socket 1 (sample_dev 1 (Some 10%positive))).
  - reflexivity.
  - eexists. split; reflexivity.
  - reflexivity.
  - reflexivity.
  - vm_compute. discriminate.
  - simpl. lia.
  - reflexivity.
  - simpl. lia.
  - intros [H | H]; vm_compute in H; discriminate.
Defined.

(** X23: a 12-byte datagram received into an 8-byte buffer. *)
Lemma recvmsg_truncated_example :
  let r := @proto_raw_recvmsg sample_h msg_no_name 8 0
             {| recv_skb := Some (packet 12); recv_err := 0;
                recv_cb := addr_of 1; copy_ret := 0 |} in
  r.1.1 = Z.min 8 12
  ∧ r.2 = Some (Z.min 8 12)
  ∧ (8 < 12 →
       msg_flags r.1.2 = Z.lor 0 MSG_TRUNC
       ∧ Z.land (msg_flags r.1.2) MSG_TRUNC = MSG_TRUNC)
  ∧ (12 <= 8 → msg_flags r.1.2 = 0).
Proof.
  apply (@recvmsg_copies_min sample_h msg_no_name 8 0
           {| recv_skb := Some (packet 12); recv_err := 0;
              recv_cb := addr_of 1; copy_ret := 0 |} (packet 12)).
  - reflexivity.
  - simpl. lia.
  - unfold INT_MAX. lia.
  - simpl. unfold INT_MAX. lia.
Defined.

(** X24 on the bind of socket 100 to the down device 1. *)
Lemma bind_puts_device_example :
  ∃ v s' l,
    @proto_raw_bind sample_h 100%positive (addr_of 1) 8 (Some 21%positive)
      state_down_device = Ret v s'
    ∧ klog s' = klog state_down_device ++ l
    ∧ (l = []
       ∨ (netdevs state_down_device !! 1 = None ∧ l = [EvDevGet 1])
       ∨ (∃ dev mid,
            netdevs state_down_device !! 1 = Some dev
            ∧ l = [EvDevGet 1] ++ mid ++ [EvDevPut (dev_ifindex dev)]
            ∧ (mid = [] ∨ mid = [EvErrorReport 100%positive]))).
Proof.
  destruct (@bind_puts_device sample_h 100%positive (addr_of 1) 8
              (Some 21%positive) state_down_device 0
              (ltac:(let t := eval vm_compute in
                       (match @proto_raw_bind sample_h 100%positive (addr_of 1)
                                8 (Some 21%positive) state_down_device with
                        | Ret _ st => st
                        | Oops st => st
                        | Undef st => st
                        end) in exact t)))
    as (l & Hl & Hx); [vm_compute; reflexivity|].
  eexists _, _, l. split; [vm_compute; reflexivity|]. split; [exact Hl|].
  exact Hx.
Defined.

(** X25 and X26 on the release of the bound socket 100. *)
Lemma release_twice_example :
  ∃ sock' s',
    @proto_raw_release sample_h socket_100 true state_one_socket
    = Ret (0, sock') s'
    ∧ sock_sk sock' = None
    ∧ @proto_raw_release sample_h sock' true s' = Ret (0, sock') s'.
Proof.
  eexists _, _. split; [vm_compute; reflexivity|].
  eapply (proj2 (@release_twice sample_h socket_100 true true state_one_socket
                   0 _ _ _)).
  Unshelve. vm_compute. reflexivity.
Defined.

Lemma release_unregisters_example :
  ∃ p sock' s' sk_list',
    entry_for (sk_infos state_one_socket) [20%positive] fn_raw_ingress
      100%positive p
    ∧ @proto_raw_release sample_h socket_100 false state_one_socket
      = Ret (0, sock') s'
    ∧ sock_sk sock' = None
    ∧ sk_lists s' !! 10%positive = Some sk_list'
    ∧ sl_head sk_list' = hlist_del_rcu p [20%positive]
    ∧ entries sk_list' = 1 - 1
    ∧ sk_infos s' = delete p (sk_infos state_one_socket)
    ∧ netdevs s' !! 1 = Some (sample_dev 1 (Some 10%positive))
    ∧ socks s' !! 100%positive
      = Some {| sk_err := 0; sock_dead := true; sk_receive_queue := [];
                psk_ifindex := 0; bound := 0 |}
    ∧ klog s' = klog state_one_socket ++ [EvDevGet 1] ++ [].
Proof.
  apply (@release_unregisters_socket sample_h socket_100 false
           state_one_socket 100%positive (set_bound 1 1 fresh_sock)
           (sample_dev 1 (Some 10%positive)) 10%positive
           {| sl_head := [20%positive]; remove_on_zero_entries := 0;
              entries := 1 |} 20%positive).
  - reflexivity.
  - reflexivity.
  - reflexivity.
  - reflexivity.
  - reflexivity.
  - reflexivity.
  - split; [exact sample_list_live_one|].
    split; [apply NoDup_singleton | reflexivity].
  - simpl. unfold INT_MAX. lia.
  - reflexivity.
  - exact sample_entry_one.
Defined.

(** X27: socket 100 is released after its device was removed: its entry
    stays in the list. *)
Lemma release_without_list_example :
  ∃ sock' s',
    @proto_raw_release sample_h socket_100 true state_device_removed
    = Ret (0, sock') s'
    ∧ sock_sk sock' = None
    ∧ sk_lists s' = sk_lists state_device_removed
    ∧ sk_infos s' = sk_infos state_device_removed
    ∧ netdevs s' = netdevs state_device_removed
    ∧ socks s' !! 100%positive
      = (if true then None
         else Some {| sk_err := sk_err (set_bound 1 1 fresh_sock);
                      sock_dead := true;
                      sk_receive_queue :=
                        sk_receive_queue (set_bound 1 1 fresh_sock);
                      psk_ifindex := 0; bound := 0 |}).
Proof.
  apply (@release_without_list sample_h socket_100 true
           state_device_removed 100%positive (set_bound 1 1 fresh_sock)).
  - reflexivity.
  - reflexivity.
  - right. eexists. split; reflexivity.
Defined.

(** ** What holds in every state the driver reaches *)

Section Reachable.

Context {hdr : arinc429_h}.














End Reachable.

Section ReachableClaims.

Context {hdr : arinc429_h}.





End ReachableClaims.

(** ** The claims on states the driver reaches *)


Lemma state_down_and_socket_reachable :
  @reachable sample_h state_down_and_socket.
Proof.
  unfold state_down_and_socket.
  apply reach_create, reach_host, reach_notifier, reach_host, reach_boot.
Qed.




